(** * The course blocks endpoint: [lms/djangoapps/course_api/blocks/views.py]

    A shallow embedding of [CourseBlocks.list].  The view imports its
    collaborators: [BlockListGetForm] from [forms.py], [BlockSerializer] and
    [BlockDictSerializer] from [serializers.py], [BlocksAPITransformer] from
    [transformers/blocks_api.py], [get_course_blocks] and
    [LMS_COURSE_TRANSFORMERS] from [course_blocks/api.py].  The view is
    written over them as section variables, and its properties are proved
    for any collaborators; module [SpecModel] then gives the collaborators
    as the specification describes them, and the properties that depend on
    them are proved there. *)

From Stdlib Require Import ZArith Ascii String.
From stdpp Require Import base option list gmap strings sets fin_maps.

Open Scope string_scope.
Open Scope list_scope.

(** ** Python values that travel through [cleaned_data] *)

Definition User := string.

Inductive PyVal :=
| PyNone
| PyInt (n : Z)
| PyStr (s : string)
| PyList (xs : list string)
| PySet (xs : gset string)
| PyUser (u : User).

#[global] Instance PyVal_eq_dec : EqDecision PyVal.
Proof. solve_decision. Defined.

(** [d.get(key, default)] on a plain Python dict. *)
Definition dict_get (d : gmap string PyVal) (key : string) (default : PyVal) : PyVal :=
  match d !! key with
  | Some v => v
  | None => default
  end.

(** ** Exceptions and results *)

(** [ErrorDict]: field name to the list of messages collected for it. *)
Abbreviation ErrorDict := (gmap string (list string)).

(** The exceptions of the view and of its collaborators. *)
Inductive Exn :=
| ValidationError (errors : ErrorDict)
| Http404 (msg : string)
| ItemNotFoundError (message : string)
| KeyError (key : string)
| AttributeError (msg : string)
| PermissionDenied (msg : string)
| BackendError (msg : string).

#[global] Instance Exn_eq_dec : EqDecision Exn.
Proof. solve_decision. Defined.

(** A value, or the exception raised instead. *)
Inductive Res (A : Type) :=
| Ok (a : A)
| Raise (e : Exn).
Arguments Ok {A} a.
Arguments Raise {A} e.

(** The result is an exception. *)
Definition is_raise {A} (r : Res A) : bool :=
  match r with Raise _ => true | Ok _ => false end.

(** ** Django's [QueryDict]

    A [QueryDict] is a [MultiValueDict]: every key holds the list of the
    values given for it.  [request.GET] is created immutable; [copy()]
    returns a mutable deep copy. *)

Record QueryDict := mkQueryDict {
  qd_lists : gmap string (list string);
  qd_mutable : bool
}.

(** [MultiValueDict.getlist]: the whole list, empty when the key is absent. *)
Definition qd_getlist (d : QueryDict) (key : string) : list string :=
  default [] (qd_lists d !! key).

(** [MultiValueDict.get]: the last value of the list, [None] when the key is
    absent or its list is empty. *)
Definition qd_get (d : QueryDict) (key : string) : option string :=
  last (qd_getlist d key).

(** [QueryDict.copy]. *)
Definition qd_copy (d : QueryDict) : QueryDict :=
  mkQueryDict (qd_lists d) true.

(** [MultiValueDict.update] with a one-entry dict: the value is appended to
    the key's list ([setlistdefault(key).append(value)]), it does not
    replace the list. *)
Definition qd_update (d : QueryDict) (key value : string) : QueryDict :=
  mkQueryDict (<[key := qd_getlist d key ++ [value]]> (qd_lists d)) (qd_mutable d).

(** ** Django forms, as far as the view uses them *)

(** How a field's widget reads its raw value from the submitted data:
    [Widget.value_from_datadict] is [data.get(name)], the multiple-value
    widgets use [data.getlist(name)]. *)
Inductive Widget := TextInput | MultipleHiddenInput.

#[global] Instance Widget_eq_dec : EqDecision Widget.
Proof. solve_decision. Defined.

(** What a widget extracts for its field. *)
Inductive Raw :=
| RawValue (v : option string)
| RawList (vs : list string).

Definition value_from_datadict (w : Widget) (data : QueryDict) (name : string) : Raw :=
  match w with
  | TextInput => RawValue (qd_get data name)
  | MultipleHiddenInput => RawList (qd_getlist data name)
  end.

(** A bound form after [full_clean]. *)
Record BoundForm := mkBoundForm {
  errors : ErrorDict;
  cleaned_data : gmap string PyVal
}.

(** A form class: its declared fields, and its cleaning of the raw values
    (one per declared field) given the [initial] dict. *)
Record FormClass := mkFormClass {
  base_fields : list (string * Widget);
  full_clean : gmap string Raw → gmap string PyVal → BoundForm
}.

(** The raw value of every declared field. *)
Definition raw_values (fields : list (string * Widget)) (data : QueryDict) : gmap string Raw :=
  list_to_map (map (λ nw, (nw.1, value_from_datadict nw.2 data nw.1)) fields).

(** [Form(data, initial=initial)] followed by the lazy [full_clean]. *)
Definition bind_form (F : FormClass) (data : QueryDict) (initial : gmap string PyVal) : BoundForm :=
  full_clean F (raw_values (base_fields F) data) initial.


(** [is_valid]: the form is bound and its [errors] are empty. *)
Definition is_valid (f : BoundForm) : bool := bool_decide (errors f = ∅).

(** ** The request and the store of [QueryDict] objects *)

Abbreviation loc := positive.

Record Request := mkRequest {
  GET : loc;
  user : User
}.

Section View.

(** The collaborators of the view.  They are functions of their arguments:
    they read the parameters they are given, not the heap, so none of them
    mutates a [QueryDict] or reads [request.GET] behind the view's back. *)
Context {Transformer BlockStructure Data : Type}.
Variable BlockListGetForm : FormClass.
Variable LMS_COURSE_TRANSFORMERS : list Transformer.
Variable BlocksAPITransformer : PyVal → PyVal → PyVal → PyVal → Transformer.
Variable get_course_blocks : PyVal → PyVal → list Transformer → Res BlockStructure.

(** The serializer context built by the view. *)
Record SerializerContext := mkContext {
  ctx_request : Request;
  ctx_block_structure : BlockStructure;
  ctx_requested_fields : PyVal
}.

Variable BlockDictSerializer : BlockStructure → SerializerContext → Res Data.
Variable BlockSerializer : BlockStructure → SerializerContext → Res Data.

(** Calls that leave the view, in the order they are made. *)
Inductive Event :=
| CallGetCourseBlocks (u usage_key : PyVal) (transformers : list Transformer)
| CallBlockDictSerializer (blocks : BlockStructure) (ctx : SerializerContext)
| CallBlockSerializer (blocks : BlockStructure) (ctx : SerializerContext).

Definition is_serializer_call (e : Event) : bool :=
  match e with
  | CallGetCourseBlocks _ _ _ => false
  | _ => true
  end.

Definition is_pipeline_call (e : Event) : bool :=
  match e with
  | CallGetCourseBlocks _ _ _ => true
  | _ => false
  end.

Record State := mkState {
  heap : gmap loc QueryDict;
  trace : list Event
}.

(** *** A state and exception monad *)

Definition M (A : Type) : Type := State → Res A * State.

Definition ret {A} (a : A) : M A := λ st, (Ok a, st).

Definition raise {A} (e : Exn) : M A := λ st, (Raise e, st).

Definition bind {A B} (m : M A) (k : A → M B) : M B := λ st,
  match m st with
  | (Ok a, st') => k a st'
  | (Raise e, st') => (Raise e, st')
  end.

(** [try: m except ...: handler]. *)
Definition try_except {A} (m : M A) (handler : Exn → M A) : M A := λ st,
  match m st with
  | (Ok a, st') => (Ok a, st')
  | (Raise e, st') => handler e st'
  end.

Notation "x <~ m ;; k" := (bind m (λ x, k))
  (at level 100, m at next level, right associativity).

(** [d[key]] on a plain dict. *)
Definition getitem (d : gmap string PyVal) (key : string) : M PyVal :=
  match d !! key with
  | Some v => ret v
  | None => raise (KeyError key)
  end.

(** [l.copy()]: allocates the copy at a fresh location. *)
Definition QueryDict_copy (l : loc) : M loc := λ st,
  match heap st !! l with
  | Some d =>
      let l' := fresh (dom (heap st)) in
      (Ok l', mkState (<[l' := qd_copy d]> (heap st)) (trace st))
  | None => (Raise (BackendError "dangling reference"), st)
  end.

(** [l.update({key: value})]: in place; refused on an immutable
    [QueryDict]. *)
Definition QueryDict_update (l : loc) (key value : string) : M unit := λ st,
  match heap st !! l with
  | Some d =>
      if qd_mutable d
      then (Ok (), mkState (<[l := qd_update d key value]> (heap st)) (trace st))
      else (Raise (AttributeError "This QueryDict instance is immutable"), st)
  | None => (Raise (BackendError "dangling reference"), st)
  end.

Definition deref (l : loc) : M QueryDict := λ st,
  match heap st !! l with
  | Some d => (Ok d, st)
  | None => (Raise (BackendError "dangling reference"), st)
  end.

Definition log (e : Event) : M unit := λ st,
  (Ok (), mkState (heap st) (trace st ++ [e])).

Definition lift {A} (r : Res A) : M A := λ st, (r, st).

Definition call_get_course_blocks (u k : PyVal) (ts : list Transformer) : M BlockStructure :=
  _ <~ log (CallGetCourseBlocks u k ts) ;;
  lift (get_course_blocks u k ts).

Definition call_BlockDictSerializer (b : BlockStructure) (c : SerializerContext) : M Data :=
  _ <~ log (CallBlockDictSerializer b c) ;;
  lift (BlockDictSerializer b c).

Definition call_BlockSerializer (b : BlockStructure) (c : SerializerContext) : M Data :=
  _ <~ log (CallBlockSerializer b c) ;;
  lift (BlockSerializer b c).

(** [Response(data)]. *)
Inductive Response := mkResponse (data : Data).

(** [Response(serializer.data)], when evaluating [serializer.data] may
    raise. *)
Definition body (r : Res Data) : Res Response :=
  match r with
  | Ok data => Ok (mkResponse data)
  | Raise e => Raise e
  end.

(** A computation is uniform when its result and the calls it makes are
    the same from every state, and it leaves the heap as it is. *)
Definition uniform {A} (m : M A) : Prop :=
  ∃ r evs, ∀ st, m st = (r, mkState (heap st) (trace st ++ evs)).

(** *** [CourseBlocks.list] *)

Definition blocks_api_transformer_of (params : BoundForm) : Transformer :=
  BlocksAPITransformer
    (dict_get (cleaned_data params) "block_counts" (PyList []))
    (dict_get (cleaned_data params) "student_view_data" (PyList []))
    (dict_get (cleaned_data params) "depth" PyNone)
    (dict_get (cleaned_data params) "nav_depth" PyNone).

Definition CourseBlocks_list (request : Request) (usage_key_string : string) : M Response :=
  (* request parameters *)
  requested_params <~ QueryDict_copy (GET request) ;;
  _ <~ QueryDict_update requested_params "usage_key" usage_key_string ;;
  data <~ deref requested_params ;;
  let params :=
    bind_form BlockListGetForm data {["requesting_user" := PyUser (user request)]} in
  if negb (is_valid params) then raise (ValidationError (errors params)) else
  (* transform blocks *)
  let blocks_api_transformer := blocks_api_transformer_of params in
  blocks <~ try_except
    (u <~ getitem (cleaned_data params) "user" ;;
     k <~ getitem (cleaned_data params) "usage_key" ;;
     call_get_course_blocks u k (LMS_COURSE_TRANSFORMERS ++ [blocks_api_transformer]))
    (λ exception,
       match exception with
       | ItemNotFoundError message =>
           raise (Http404 ("Course block not found: " +:+ message))
       | _ => raise exception
       end) ;;
  (* serialize *)
  requested_fields <~ getitem (cleaned_data params) "requested_fields" ;;
  let serializer_context := mkContext request blocks requested_fields in
  return_type <~ getitem (cleaned_data params) "return_type" ;;
  data <~ (if bool_decide (return_type = PyStr "dict")
           then call_BlockDictSerializer blocks serializer_context
           else call_BlockSerializer blocks serializer_context) ;;
  (* response *)
  ret (mkResponse data).

(** The parameters handed to the form, and the bound form, for a request
    whose [GET] holds [d]. *)
Definition requested_params_of (d : QueryDict) (usage_key_string : string) : QueryDict :=
  qd_update (qd_copy d) "usage_key" usage_key_string.

Definition params_of (d : QueryDict) (u : User) (usage_key_string : string) : BoundForm :=
  bind_form BlockListGetForm (requested_params_of d usage_key_string)
    {["requesting_user" := PyUser u]}.

End View.

(** * The collaborators, modelled from the specification *)

Module SpecModel.

(** ** Block graph (spec section 3) *)

(** Modelled from the spec: the values of the sparse [fields] mapping. *)
Inductive FieldVal :=
| FBool (b : bool)
| FStr (s : string)
| FCounts (m : gmap string nat).

#[global] Instance FieldVal_eq_dec : EqDecision FieldVal.
Proof. solve_decision. Defined.

(** Modelled from the spec: the [Block] record of the data model, whose
    class is not among the sources.  [student_view] is the opaque payload
    the content backend supplies for the block, if any; [parents] is
    derived from [children] below. *)
Record Block := mkBlock {
  block_type : string;
  display_name : string;
  children : list string;
  student_view : option string;
  fields : gmap string FieldVal
}.

(** Modelled from the spec: the [Block Graph], a root id and the arena of
    blocks keyed by id. *)
Record BlockGraph := mkGraph {
  root : string;
  blocks : gmap string Block
}.

(** [b] with its [children] replaced. *)
Definition set_children (cs : list string) (b : Block) : Block :=
  mkBlock (block_type b) (display_name b) cs (student_view b) (fields b).

(** [b] with [fields[name]] set. *)
Definition set_field (name : string) (v : FieldVal) (b : Block) : Block :=
  mkBlock (block_type b) (display_name b) (children b) (student_view b)
    (<[name := v]> (fields b)).

(** Modelled from the spec: the [parents] of a block, the blocks that list
    it among their [children]. *)
Definition parents (bs : gmap string Block) (b : string) : gset string :=
  dom (filter (λ kv, b ∈ children kv.2) bs).

(** Ids of the children of [b], none when [b] is not a block. *)
Definition children_of (bs : gmap string Block) (b : string) : list string :=
  match bs !! b with
  | Some blk => children blk
  | None => []
  end.

(** Modelled from the spec: the ids at most [d] levels below [r]; a block
    shared by several parents lies at the level of its shortest path. *)
Fixpoint within (bs : gmap string Block) (r : string) (d : nat) : gset string :=
  match d with
  | O => {[r]}
  | S d' =>
      let s := within bs r d' in
      s ∪ list_to_set (flat_map (children_of bs) (elements s))
  end.

(** Modelled from the spec: removing blocks removes them from [blocks] and
    from every parent's [children] list. *)
Definition drop_dangling (bs : gmap string Block) : gmap string Block :=
  (λ b, set_children (filter (λ c, c ∈ dom bs) (children b)) b) <$> bs.

(** Modelled from the spec: pruning down to the blocks of [keep]. *)
Definition keep_only (keep : gset string) (bs : gmap string Block) : gmap string Block :=
  drop_dangling (filter (λ kv, kv.1 ∈ keep) bs).

(** ** Transformers (spec section 4.2) *)

(** Modelled from the spec: the Access Transformer.  Blocks failing the
    check are pruned, then the blocks no longer reachable from the root;
    an inaccessible root is the forbidden outcome. *)
Definition access_transform (allowed : string → Block → bool) (g : BlockGraph) : Res BlockGraph :=
  let visible := drop_dangling (filter (λ kv, allowed kv.1 kv.2 = true) (blocks g)) in
  match visible !! root g with
  | None => Raise (PermissionDenied (root g))
  | Some _ =>
      Ok (mkGraph (root g) (keep_only (within visible (root g) (size visible)) visible))
  end.

(** Modelled from the spec: structural depth truncation; [None] is the
    unbounded depth. *)
Definition depth_truncate (depth : option nat) (g : BlockGraph) : BlockGraph :=
  match depth with
  | None => g
  | Some d => mkGraph (root g) (keep_only (within (blocks g) (root g) d) (blocks g))
  end.

(** Modelled from the spec: navigational collapsing.  Blocks deeper than
    [nav_depth] get no entry of their own, and, as the invariant of the
    Block Graph requires of the ids that depth or nav-depth limiting
    truncates, their ids are dropped from the [children] of the blocks that
    stay. *)
Definition nav_collapse (nav_depth : option nat) (g : BlockGraph) : BlockGraph :=
  match nav_depth with
  | None => g
  | Some n => mkGraph (root g) (keep_only (within (blocks g) (root g) n) (blocks g))
  end.

(** Modelled from the spec: 1 if the block's own type is [T], else 0. *)
Definition own_count (T : string) (b : Block) : nat :=
  if decide (block_type b = T) then 1 else 0.

(** Modelled from the spec: the Count Aggregator's bottom-up rule, a
    block's count for [T] is its own match plus its children's counts.
    The recursion is bounded by the number of blocks; running out means a
    path longer than that, a cycle, and the count fails. *)
Fixpoint count_at (fuel : nat) (bs : gmap string Block) (T : string) (b : string) : option nat :=
  match bs !! b with
  | None => Some 0
  | Some blk =>
      match fuel with
      | O => None
      | S f =>
          cs ← mapM (count_at f bs T) (children blk);
          Some (own_count T blk + sum_list cs)
      end
  end.

(** Modelled from the spec: the aggregate count of [b] for [T] over [bs]. *)
Definition subtree_count (bs : gmap string Block) (T : string) (b : string) : option nat :=
  count_at (size bs) bs T b.

(** Modelled from the spec: the mapping from each requested type to the
    count, stored in [fields["block_counts"]] of block [b]. *)
Definition counts_for (bs : gmap string Block) (types : list string) (b : string)
  : option (gmap string nat) :=
  ns ← mapM (λ T, subtree_count bs T b) types;
  Some (list_to_map (zip types ns)).

(** Modelled from the spec: counts reflect the access-filtered tree, not
    the depth-truncated one, and are attached to every block of the final
    output.  [scope] is the graph as the access filter left it, [bs] the
    shaped graph.  [fields] is sparse: nothing is attached when no type is
    asked for. *)
Definition attach_counts (scope : gmap string Block) (types : list string)
    (bs : gmap string Block) : option (gmap string Block) :=
  if decide (types = []) then Some bs else
  if decide (map_Forall (λ b _, is_Some (counts_for scope types b)) bs)
  then Some (map_imap (λ b blk,
               Some (match counts_for scope types b with
                     | Some m => set_field "block_counts" (FCounts m) blk
                     | None => blk
                     end)) bs)
  else None.

(** Modelled from the spec: the View-Data Injector attaches the payload to
    the blocks whose type is selected. *)
Definition inject_view_data (types : list string) (bs : gmap string Block)
  : gmap string Block :=
  (λ blk,
     if decide (block_type blk ∈ types)
     then match student_view blk with
          | Some payload => set_field "student_view_data" (FStr payload) blk
          | None => blk
          end
     else blk) <$> bs.

(** Modelled from the spec: the closed set of transformer variants.  The
    access filter is the fixed chain; the variant built per request
    carries the four request parameters. *)
Inductive Transformer :=
| AccessTransformer
| BlocksAPITransformer (block_counts student_view_data depth nav_depth : PyVal).

(** Modelled from the spec: the fixed chain that precedes the per-request
    transformer. *)
Definition LMS_COURSE_TRANSFORMERS : list Transformer := [AccessTransformer].

(** Modelled from the spec: the tokens of a list or set parameter. *)
Definition tokens (v : PyVal) : list string :=
  match v with
  | PyList xs => xs
  | PySet xs => elements xs
  | _ => []
  end.

(** Modelled from the spec: a depth parameter is a non-negative integer,
    or unbounded, which [None] stands for. *)
Definition bound (v : PyVal) : option nat :=
  match v with
  | PyInt n => Some (Z.to_nat n)
  | _ => None
  end.

(** Modelled from the spec: the Depth/Navigation Transformer, structural
    truncation first, so no block stays beyond [depth], then collapsing;
    both drop the ids they truncate from the [children] lists. *)
Definition shape (depth nav_depth : PyVal) (g : BlockGraph) : BlockGraph :=
  nav_collapse (bound nav_depth) (depth_truncate (bound depth) g).

(** Modelled from the spec: what the transformer built from the four
    request parameters does to the graph the access filter left: shaping,
    counting over the unshaped graph, view-data injection.  A cycle fails
    the pipeline. *)
Definition blocks_api_transform (block_counts student_view_data depth nav_depth : PyVal)
    (g : BlockGraph) : Res BlockGraph :=
  let shaped := shape depth nav_depth g in
  match attach_counts (blocks g) (tokens block_counts)
          (inject_view_data (tokens student_view_data) (blocks shaped)) with
  | Some bs => Ok (mkGraph (root g) bs)
  | None => Raise (BackendError "cycle in the block graph")
  end.

(** Modelled from the spec: one pipeline stage. *)
Definition transform (allowed : string → Block → bool) (t : Transformer) (g : BlockGraph)
  : Res BlockGraph :=
  match t with
  | AccessTransformer => access_transform allowed g
  | BlocksAPITransformer bc svd depth nav => blocks_api_transform bc svd depth nav g
  end.

(** Modelled from the spec: the pipeline runs its transformers in list
    order, each on the graph the previous one left; the first failure
    fails the whole pipeline. *)
Fixpoint run_pipeline (allowed : string → Block → bool) (ts : list Transformer)
    (g : BlockGraph) : Res BlockGraph :=
  match ts with
  | [] => Ok g
  | t :: ts' =>
      match transform allowed t g with
      | Ok g' => run_pipeline allowed ts' g'
      | Raise e => Raise e
      end
  end.

Section Providers.

(** The content-graph provider and the access-check provider. *)
Variable store : gmap string Block.
Variable access : User → string → Block → bool.

(** Modelled from the spec: [get_course_blocks] loads the graph at the
    root, fails with not-found when the root is not a block, and runs the
    pipeline. *)
Definition get_course_blocks (u usage_key : PyVal) (transformers : list Transformer)
  : Res BlockGraph :=
  match u, usage_key with
  | PyUser who, PyStr k =>
      match store !! k with
      | None => Raise (ItemNotFoundError k)
      | Some _ => run_pipeline (access who) transformers (mkGraph k store)
      end
  | _, _ => Raise (BackendError "bad arguments")
  end.

End Providers.

(** ** Projector (spec section 4.3) *)

(** Modelled from the spec: the record emitted per block. *)
Record BlockRecord := mkRecord {
  rec_id : string;
  rec_type : string;
  rec_display_name : string;
  rec_children : option (list string);
  rec_fields : gmap string FieldVal
}.

(** Modelled from the spec: the two response shapes. *)
Inductive Data :=
| DictData (root_id : string) (records : gmap string BlockRecord)
| ListData (records : list BlockRecord).

(** Modelled from the spec: one record per block, with [id], [type],
    [display_name], [children] when requested, and the fields that are
    requested; [block_counts] and [student_view_data] are selected by
    their own parameters, so they are emitted wherever the pipeline
    attached them. *)
Definition record_of (requested : list string) (b : string) (blk : Block) : BlockRecord :=
  mkRecord b (block_type blk) (display_name blk)
    (if decide ("children" ∈ requested) then Some (children blk) else None)
    (filter (λ kv, kv.1 ∈ requested ∨ kv.1 = "block_counts" ∨ kv.1 = "student_view_data")
       (fields blk)).

(** Modelled from the spec: pre-order, children in authored order, every
    block at its first visit; ids without a block are skipped.  Every step
    takes one id off [todo], and [todo] receives the root and, once per
    block, its children, so one more step than there are edges suffices. *)
Fixpoint preorder (fuel : nat) (bs : gmap string Block) (todo : list string)
    (seen : gset string) : list string :=
  match fuel with
  | O => []
  | S f =>
      match todo with
      | [] => []
      | b :: rest =>
          if decide (b ∈ seen) then preorder f bs rest seen
          else match bs !! b with
               | None => preorder f bs rest seen
               | Some blk => b :: preorder f bs (children blk ++ rest) ({[b]} ∪ seen)
               end
      end
  end.

(** The number of child listings of the graph. *)
Definition edges (bs : gmap string Block) : nat :=
  map_fold (λ _ blk n, length (children blk) + n) 0 bs.


(** Modelled from the spec: the order of the records in list mode. *)
Definition traversal (g : BlockGraph) : list string :=
  preorder (S (edges (blocks g))) (blocks g) [root g] ∅.

Abbreviation Context := (@SerializerContext BlockGraph).

(** Modelled from the spec: [BlockDictSerializer], the projector for
    [return_type = dict]: the root id and a record for every block. *)
Definition BlockDictSerializer (g : BlockGraph) (ctx : Context) : Res Data :=
  Ok (DictData (root g)
        (map_imap (λ b blk, Some (record_of (tokens (ctx_requested_fields ctx)) b blk))
           (blocks g))).

(** Modelled from the spec: [BlockSerializer] with [many=True], the
    projector for [return_type = list]. *)
Definition BlockSerializer (g : BlockGraph) (ctx : Context) : Res Data :=
  Ok (ListData
        (omap (λ b, record_of (tokens (ctx_requested_fields ctx)) b <$> blocks g !! b)
           (traversal g))).

(** ** Request Resolver (spec section 4.1) *)

(** The value of a decimal digit. *)
Definition digit_of (a : ascii) : option Z :=
  let n := Z.of_N (Ascii.N_of_ascii a) in
  if decide (48 ≤ n ≤ 57)%Z then Some (n - 48)%Z else None.

(** The number whose digits follow those already read into [acc]. *)
Fixpoint parse_digits (acc : Z) (s : string) : option Z :=
  match s with
  | EmptyString => Some acc
  | String a s' => d ← digit_of a; parse_digits (10 * acc + d)%Z s'
  end.

(** Modelled from the spec: parsing an integer that is at least 0. *)
Definition parse_int (s : string) : option Z :=
  match s with
  | EmptyString => None
  | _ => parse_digits 0 s
  end.

(** The comma-delimited pieces of [s], [cur] being the piece in progress. *)
Fixpoint split_commas (cur : string) (s : string) : list string :=
  match s with
  | EmptyString => [cur]
  | String a s' =>
      if decide (a = ","%char) then cur :: split_commas "" s'
      else split_commas (cur +:+ String a "") s'
  end.

(** Modelled from the spec: the set of tokens of a comma-delimited or
    multi-valued input. *)
Definition token_set (vs : list string) : gset string :=
  list_to_set (filter (λ t, t ≠ "") (flat_map (split_commas "") vs)).

(** Modelled from the spec: the recognized vocabulary of
    [requested_fields]. *)
Definition requested_fields_vocabulary : gset string :=
  list_to_set ["children"; "graded"; "format"; "student_view_data";
               "student_view_multi_device"; "student_view_url"; "lms_web_url";
               "block_counts"].

(** The value of a single-valued field, [None] when it is absent or empty. *)
Definition raw_scalar (raw : gmap string Raw) (name : string) : option string :=
  match raw !! name with
  | Some (RawValue (Some "")) => None
  | Some (RawValue v) => v
  | _ => None
  end.

(** The values of a multi-valued field. *)
Definition raw_list (raw : gmap string Raw) (name : string) : list string :=
  match raw !! name with
  | Some (RawList vs) => vs
  | _ => []
  end.

(** Modelled from the spec: the root identifier is required. *)
Definition clean_usage_key (raw : gmap string Raw) : string + PyVal :=
  match raw_scalar raw "usage_key" with
  | None => inl "This field is required."
  | Some s => inr (PyStr s)
  end.

(** Modelled from the spec: [depth] is an integer that is at least 0, or
    the literal [all] for unbounded; default 0. *)
Definition clean_depth (raw : gmap string Raw) : string + PyVal :=
  match raw_scalar raw "depth" with
  | None => inr (PyInt 0)
  | Some s =>
      if decide (s = "all") then inr PyNone
      else match parse_int s with
           | Some n => inr (PyInt n)
           | None => inl "Enter a whole number or all."
           end
  end.

(** Modelled from the spec: [nav_depth] is an integer that is at least 0;
    default 3. *)
Definition clean_nav_depth (raw : gmap string Raw) : string + PyVal :=
  match raw_scalar raw "nav_depth" with
  | None => inr (PyInt 3)
  | Some s =>
      match parse_int s with
      | Some n => inr (PyInt n)
      | None => inl "Enter a whole number."
      end
  end.

(** Modelled from the spec: [return_type] is one of [dict] and [list];
    default [dict]. *)
Definition clean_return_type (raw : gmap string Raw) : string + PyVal :=
  match raw_scalar raw "return_type" with
  | None => inr (PyStr "dict")
  | Some s =>
      if decide (s = "dict" ∨ s = "list") then inr (PyStr s)
      else inl "Select a valid choice."
  end.

(** Modelled from the spec: the requesting identity, which the view hands
    over in [initial]. *)
Definition clean_user (initial : gmap string PyVal) : string + PyVal :=
  match initial !! "requesting_user" with
  | Some u => inr u
  | None => inl "This field is required."
  end.

(** One cleaned field joins either [errors] or [cleaned_data]. *)
Definition add_field (name : string) (r : string + PyVal) (f : BoundForm) : BoundForm :=
  match r with
  | inl msg => mkBoundForm (<[name := [msg]]> (errors f)) (cleaned_data f)
  | inr v => mkBoundForm (errors f) (<[name := v]> (cleaned_data f))
  end.

(** Modelled from the spec: the Request Resolver's parsing rules; every
    field is cleaned, and every failure is collected. *)
Definition clean (raw : gmap string Raw) (initial : gmap string PyVal) : BoundForm :=
  add_field "user" (clean_user initial)
  (add_field "usage_key" (clean_usage_key raw)
  (add_field "requested_fields"
     (inr (PySet (token_set (raw_list raw "requested_fields") ∩ requested_fields_vocabulary)))
  (add_field "student_view_data" (inr (PySet (token_set (raw_list raw "student_view_data"))))
  (add_field "block_counts" (inr (PySet (token_set (raw_list raw "block_counts"))))
  (add_field "depth" (clean_depth raw)
  (add_field "nav_depth" (clean_nav_depth raw)
  (add_field "return_type" (clean_return_type raw)
     (mkBoundForm ∅ ∅)))))))).

(** Modelled from the spec: [BlockListGetForm], the Request Resolver; the
    scalar parameters are single-valued fields, the token sets
    multi-valued ones. *)
Definition BlockListGetForm : FormClass :=
  mkFormClass
    [("usage_key", TextInput); ("requested_fields", MultipleHiddenInput);
     ("student_view_data", MultipleHiddenInput); ("block_counts", MultipleHiddenInput);
     ("depth", TextInput); ("nav_depth", TextInput); ("return_type", TextInput)]
    clean.

(** ** The endpoint over the modelled collaborators *)

(** [CourseBlocks.list] with the collaborators above, over a content
    store and an access check. *)
Definition endpoint (store : gmap string Block) (access : User → string → Block → bool)
    (request : Request) (usage_key_string : string) :=
  CourseBlocks_list BlockListGetForm LMS_COURSE_TRANSFORMERS BlocksAPITransformer
    (get_course_blocks store access) BlockDictSerializer BlockSerializer
    request usage_key_string.

(** ** What the claims speak of *)

(** [c] is listed as a child of the block [a]. *)
Definition edge (bs : gmap string Block) (a c : string) : Prop :=
  ∃ blk, bs !! a = Some blk ∧ c ∈ children blk.

(** No block is among its own descendants. *)
Definition acyclic (bs : gmap string Block) : Prop :=
  ∀ a, ¬ tc (edge bs) a a.

(** The count a block carries for type [T]. *)
Definition block_count (T : string) (blk : Block) : nat :=
  match fields blk !! "block_counts" with
  | Some (FCounts m) => default 0 (m !! T)
  | _ => 0
  end.

(** Every block's count is its own match plus the counts carried by its
    children in the same graph. *)
Definition counts_consistent (types : list string) (g : BlockGraph) : Prop :=
  ∀ b blk T,
    blocks g !! b = Some blk → T ∈ types →
    block_count T blk
      = own_count T blk
        + sum_list ((λ c, from_option (block_count T) 0 (blocks g !! c)) <$> children blk).


(** *** The example of spec section 8 *)

(** A block without children. *)
Definition leaf (type name : string) : Block := mkBlock type name [] None ∅.

(** The tree [course → chapter1 → [seq1(video), seq2(problem)]]. *)
Definition example_store : gmap string Block :=
  <["course-block" := mkBlock "course" "Course" ["chapter1"] None ∅]>
  (<["chapter1" := mkBlock "chapter" "Chapter 1" ["seq1"; "seq2"] None ∅]>
  (<["seq1" := leaf "video" "Sequence 1"]>
  (<["seq2" := leaf "problem" "Sequence 2"]> ∅))).

(** An access check that lets every user see every block. *)
Definition allow_all (u : User) (b : string) (blk : Block) : bool := true.

(** [request.GET] for a query string, immutable as Django builds it. *)
Definition example_query (params : list (string * list string)) : QueryDict :=
  mkQueryDict (list_to_map params) false.

(** A heap that holds [request.GET] only, and no call made yet. *)
Definition example_state (q : QueryDict) : @State Transformer BlockGraph :=
  mkState (<[1%positive := q]> ∅) [].

(** A request of user [anjali]. *)
Definition example_request : Request := mkRequest 1%positive "anjali".

(** The endpoint on the example, for a query and a usage key. *)
Definition example_run (params : list (string * list string)) (usage_key_string : string) :=
  endpoint example_store allow_all example_request usage_key_string
    (example_state (example_query params)).

(** The data of the response on the example, the empty list when there is
    no response. *)
Definition example_data (params : list (string * list string)) (usage_key_string : string)
  : Data :=
  match (example_run params usage_key_string).1 with
  | Ok (mkResponse data) => data
  | Raise _ => ListData []
  end.

(** The graph the pipeline returns on the example, the empty graph when it
    fails. *)
Definition example_graph (bc svd depth nav : PyVal) : BlockGraph :=
  match get_course_blocks example_store allow_all (PyUser "anjali") (PyStr "course-block")
          (LMS_COURSE_TRANSFORMERS ++ [BlocksAPITransformer bc svd depth nav]) with
  | Ok g => g
  | Raise _ => mkGraph "" ∅
  end.

End SpecModel.

(** * Forms for the edge cases of the view *)

(** A form that declares no field and cleans nothing: it is valid and its
    [cleaned_data] is empty. *)
Definition empty_form : FormClass :=
  mkFormClass [] (λ _ _, mkBoundForm ∅ ∅).

(** A form that cleans the user and the usage key and nothing else. *)
Definition required_only_form : FormClass :=
  mkFormClass [("usage_key", TextInput)]
    (λ raw initial,
       mkBoundForm ∅
         (<["user" := default PyNone (initial !! "requesting_user")]>
            (<["usage_key" := match raw !! "usage_key" with
                               | Some (RawValue (Some s)) => PyStr s
                               | _ => PyNone
                               end]> ∅))).



(** * Properties of [QueryDict] and of form binding *)

Lemma qd_getlist_update_same (d : QueryDict) (key value : string) :
  qd_getlist (qd_update d key value) key = qd_getlist d key ++ [value].
Proof. unfold qd_getlist at 1, qd_update. cbn. by rewrite lookup_insert_eq. Qed.

Lemma qd_getlist_update_other (d : QueryDict) (key value name : string) :
  name ≠ key → qd_getlist (qd_update d key value) name = qd_getlist d name.
Proof. intros Hne. unfold qd_getlist, qd_update. cbn. by rewrite lookup_insert_ne. Qed.

Lemma qd_getlist_copy (d : QueryDict) (name : string) :
  qd_getlist (qd_copy d) name = qd_getlist d name.
Proof. reflexivity. Qed.

(** A single-valued read after [update] sees the value just added. *)
Lemma qd_get_update_same (d : QueryDict) (key value : string) :
  qd_get (qd_update d key value) key = Some value.
Proof. unfold qd_get. rewrite qd_getlist_update_same. apply last_snoc. Qed.

Lemma requested_params_usage_key (d : QueryDict) (key : string) :
  qd_get (requested_params_of d key) "usage_key" = Some key.
Proof. apply qd_get_update_same. Qed.


Lemma requested_params_other (d : QueryDict) (key name : string) :
  name ≠ "usage_key" →
  qd_getlist (requested_params_of d key) name = qd_getlist d name.
Proof.
  intros Hne. unfold requested_params_of.
  by rewrite qd_getlist_update_other, qd_getlist_copy.
Qed.


(** * Properties of the view, for any collaborators *)

Section ViewProperties.

Context {Transformer BlockStructure Data : Type}.
Variable BlockListGetForm : FormClass.
Variable LMS_COURSE_TRANSFORMERS : list Transformer.
Variable BlocksAPITransformer : PyVal → PyVal → PyVal → PyVal → Transformer.
Variable get_course_blocks : PyVal → PyVal → list Transformer → Res BlockStructure.
Variable BlockDictSerializer : BlockStructure → @SerializerContext BlockStructure → Res Data.
Variable BlockSerializer : BlockStructure → @SerializerContext BlockStructure → Res Data.

Abbreviation view :=
  (CourseBlocks_list BlockListGetForm LMS_COURSE_TRANSFORMERS BlocksAPITransformer
     get_course_blocks BlockDictSerializer BlockSerializer).
Abbreviation params_for := (params_of BlockListGetForm).
Abbreviation transformer_of := (blocks_api_transformer_of BlocksAPITransformer).
Abbreviation St := (@State Transformer BlockStructure).

(** The state once the parameters are copied and the usage key is added. *)
Abbreviation prepared st d key :=
  (mkState (<[fresh (dom (heap st)) := requested_params_of d key]> (heap st)) (trace st)).

Abbreviation push st e := (mkState (heap st) (trace st ++ [e])).

Lemma fresh_ne (st : St) (l : loc) (d : QueryDict) :
  heap st !! l = Some d → l ≠ fresh (dom (heap st)).
Proof.
  intros Hl ->. apply (is_fresh (dom (heap st))). apply elem_of_dom. eauto.
Qed.

(** An update through a reference changes the object every alias sees;
    on an immutable [QueryDict], as [request.GET] is, it raises. *)
Lemma QueryDict_update_in_place (st : St) (l : loc) (d : QueryDict) (key value : string) :
  heap st !! l = Some d → qd_mutable d = true →
  heap (QueryDict_update l key value st).2 !! l = Some (qd_update d key value).
Proof.
  intros Hl Hm. unfold QueryDict_update. rewrite Hl, Hm. cbn. by rewrite lookup_insert_eq.
Qed.

Lemma QueryDict_update_immutable (st : St) (l : loc) (d : QueryDict) (key value : string) :
  heap st !! l = Some d → qd_mutable d = false →
  QueryDict_update l key value st
    = (Raise (AttributeError "This QueryDict instance is immutable"), st).
Proof. intros Hl Hm. unfold QueryDict_update. by rewrite Hl, Hm. Qed.

(** The first three statements of the view. *)
Lemma view_prepare (st : St) request key d :
  heap st !! GET request = Some d →
  view request key st =
    let params := params_for d (user request) key in
    if negb (is_valid params) then (Raise (ValidationError (errors params)), prepared st d key)
    else
      bind
        (try_except
           (bind (getitem (cleaned_data params) "user") (λ u,
            bind (getitem (cleaned_data params) "usage_key") (λ k,
            call_get_course_blocks get_course_blocks u k
              (LMS_COURSE_TRANSFORMERS ++ [transformer_of params]))))
           (λ exception,
              match exception with
              | ItemNotFoundError message =>
                  raise (Http404 ("Course block not found: " +:+ message))
              | _ => raise exception
              end))
        (λ blocks,
         bind (getitem (cleaned_data params) "requested_fields") (λ requested_fields,
         bind (getitem (cleaned_data params) "return_type") (λ return_type,
         bind (if bool_decide (return_type = PyStr "dict")
               then call_BlockDictSerializer BlockDictSerializer blocks
                      (mkContext request blocks requested_fields)
               else call_BlockSerializer BlockSerializer blocks
                      (mkContext request blocks requested_fields))
           (λ data, ret (mkResponse data)))))
        (prepared st d key).
Proof.
  intros Hd. unfold CourseBlocks_list, params_of, requested_params_of.
  unfold bind at 1. unfold QueryDict_copy. rewrite Hd. cbn [heap trace].
  unfold bind at 1. unfold QueryDict_update. cbn [heap trace].
  rewrite lookup_insert_eq. cbn [qd_copy qd_mutable heap trace].
  unfold bind at 1. unfold deref. cbn [heap trace].
  rewrite lookup_insert_eq, insert_insert_eq.
  cbn zeta. destruct (negb _); reflexivity.
Qed.

(** A translated exception, as the [except] clause of the view does it. *)
Lemma view_retrieve (st : St) request key d u k :
  heap st !! GET request = Some d →
  is_valid (params_for d (user request) key) = true →
  cleaned_data (params_for d (user request) key) !! "user" = Some u →
  cleaned_data (params_for d (user request) key) !! "usage_key" = Some k →
  view request key st =
    let params := params_for d (user request) key in
    let ts := LMS_COURSE_TRANSFORMERS ++ [transformer_of params] in
    let st1 := push (prepared st d key) (CallGetCourseBlocks u k ts) in
    match get_course_blocks u k ts with
    | Raise (ItemNotFoundError message) =>
        (Raise (Http404 ("Course block not found: " +:+ message)), st1)
    | Raise e => (Raise e, st1)
    | Ok blocks =>
        bind (getitem (cleaned_data params) "requested_fields") (λ requested_fields,
        bind (getitem (cleaned_data params) "return_type") (λ return_type,
        bind (if bool_decide (return_type = PyStr "dict")
              then call_BlockDictSerializer BlockDictSerializer blocks
                     (mkContext request blocks requested_fields)
              else call_BlockSerializer BlockSerializer blocks
                     (mkContext request blocks requested_fields))
          (λ data, ret (mkResponse data)))) st1
    end.
Proof.
  intros Hd Hv Hu Hk. rewrite (view_prepare _ _ _ _ Hd). cbn zeta.
  rewrite Hv. cbn [negb].
  unfold bind at 1. unfold try_except.
  unfold bind at 1. unfold getitem at 1. rewrite Hu. unfold ret at 1.
  unfold bind at 1. unfold getitem at 1. rewrite Hk. unfold ret at 1.
  unfold call_get_course_blocks, bind at 1, log, lift. cbn [heap trace].
  destruct (get_course_blocks u k _) as [blocks|e]; [reflexivity|].
  destruct e; reflexivity.
Qed.

(** The serializer is chosen by [return_type], and its data is the body. *)
Lemma view_serialize (st : St) request key d u k blocks requested_fields return_type :
  heap st !! GET request = Some d →
  let params := params_for d (user request) key in
  let ts := LMS_COURSE_TRANSFORMERS ++ [transformer_of params] in
  let ctx := mkContext request blocks requested_fields in
  is_valid params = true →
  cleaned_data params !! "user" = Some u →
  cleaned_data params !! "usage_key" = Some k →
  get_course_blocks u k ts = Ok blocks →
  cleaned_data params !! "requested_fields" = Some requested_fields →
  cleaned_data params !! "return_type" = Some return_type →
  view request key st =
    if bool_decide (return_type = PyStr "dict")
    then (match BlockDictSerializer blocks ctx with
          | Ok data => Ok (mkResponse data)
          | Raise e => Raise e
          end,
          mkState (heap (prepared st d key))
            (trace st ++ [CallGetCourseBlocks u k ts; CallBlockDictSerializer blocks ctx]))
    else (match BlockSerializer blocks ctx with
          | Ok data => Ok (mkResponse data)
          | Raise e => Raise e
          end,
          mkState (heap (prepared st d key))
            (trace st ++ [CallGetCourseBlocks u k ts; CallBlockSerializer blocks ctx])).
Proof.
  intros Hd params ts ctx Hv Hu Hk Hb Hf Hr.
  rewrite (view_retrieve _ _ _ _ _ _ Hd Hv Hu Hk). cbn zeta.
  fold params ts. rewrite Hb.
  unfold bind at 1. unfold getitem at 1. rewrite Hf. unfold ret at 1.
  unfold bind at 1. unfold getitem at 1. rewrite Hr. unfold ret at 1.
  fold ctx. cbn [heap trace].
  destruct (bool_decide _).
  - unfold bind, call_BlockDictSerializer, bind, log, lift, ret. cbn [heap trace].
    rewrite <- app_assoc. cbn [app].
    destruct (BlockDictSerializer blocks ctx); reflexivity.
  - unfold bind, call_BlockSerializer, bind, log, lift, ret. cbn [heap trace].
    rewrite <- app_assoc. cbn [app].
    destruct (BlockSerializer blocks ctx); reflexivity.
Qed.

(** Every path through the view. *)
Lemma view_cases (st : St) request key :
  (heap st !! GET request = None ∧
   view request key st = (Raise (BackendError "dangling reference"), st))
  ∨ ∃ d, heap st !! GET request = Some d ∧
    let params := params_for d (user request) key in
    let ts := LMS_COURSE_TRANSFORMERS ++ [transformer_of params] in
    let st0 := prepared st d key in
    (is_valid params = false ∧
     view request key st = (Raise (ValidationError (errors params)), st0))
    ∨ (is_valid params = true ∧
       (cleaned_data params !! "user" = None ∨ cleaned_data params !! "usage_key" = None) ∧
       ∃ name, view request key st = (Raise (KeyError name), st0))
    ∨ (is_valid params = true ∧ ∃ u k,
         cleaned_data params !! "user" = Some u ∧
         cleaned_data params !! "usage_key" = Some k ∧
         let st1 := push st0 (CallGetCourseBlocks u k ts) in
         (∃ e e', get_course_blocks u k ts = Raise e ∧
                  view request key st = (Raise e', st1))
         ∨ (∃ blocks name, get_course_blocks u k ts = Ok blocks ∧
                  (cleaned_data params !! "requested_fields" = None ∨
                   cleaned_data params !! "return_type" = None) ∧
                  view request key st = (Raise (KeyError name), st1))
         ∨ (∃ blocks requested_fields return_type,
              get_course_blocks u k ts = Ok blocks ∧
              cleaned_data params !! "requested_fields" = Some requested_fields ∧
              cleaned_data params !! "return_type" = Some return_type ∧
              let ctx := mkContext request blocks requested_fields in
              (return_type = PyStr "dict" ∧
               view request key st =
                 (body (BlockDictSerializer blocks ctx),
                  mkState (heap st0)
                    (trace st ++ [CallGetCourseBlocks u k ts;
                                  CallBlockDictSerializer blocks ctx])))
              ∨ (return_type ≠ PyStr "dict" ∧
                 view request key st =
                   (body (BlockSerializer blocks ctx),
                    mkState (heap st0)
                      (trace st ++ [CallGetCourseBlocks u k ts;
                                    CallBlockSerializer blocks ctx]))))).
Proof.
  destruct (heap st !! GET request) as [d|] eqn:Hd.
  2:{ left. split; [reflexivity|].
      unfold CourseBlocks_list, bind at 1, QueryDict_copy. rewrite Hd. reflexivity. }
  right. exists d. split; [reflexivity|]. cbn zeta.
  destruct (is_valid (params_for d (user request) key)) eqn:Hv.
  2:{ left. split; [reflexivity|]. rewrite (view_prepare _ _ _ _ Hd). cbn zeta.
      rewrite Hv. reflexivity. }
  right.
  destruct (cleaned_data (params_for d (user request) key) !! "user") as [u|] eqn:Hu.
  2:{ left. split; [reflexivity|]. split; [by left|]. exists "user".
      rewrite (view_prepare _ _ _ _ Hd). cbn zeta. rewrite Hv. cbn [negb].
      unfold bind at 1, try_except, bind at 1, getitem at 1. rewrite Hu. reflexivity. }
  destruct (cleaned_data (params_for d (user request) key) !! "usage_key") as [k|] eqn:Hk.
  2:{ left. split; [reflexivity|]. split; [by right|]. exists "usage_key".
      rewrite (view_prepare _ _ _ _ Hd). cbn zeta. rewrite Hv. cbn [negb].
      unfold bind at 1, try_except, bind at 1, getitem at 1. rewrite Hu.
      unfold ret at 1, bind at 1, getitem at 1. rewrite Hk. reflexivity. }
  right. split; [reflexivity|]. exists u, k. split; [reflexivity|]. split; [reflexivity|].
  cbn zeta.
  destruct (get_course_blocks u k
              (LMS_COURSE_TRANSFORMERS ++ [transformer_of (params_for d (user request) key)]))
    as [blocks|e] eqn:Hb.
  2:{ left. rewrite (view_retrieve _ _ _ _ _ _ Hd Hv Hu Hk). cbn zeta. rewrite Hb.
      exists e. destruct e; eexists; (split; [reflexivity|reflexivity]). }
  right.
  destruct (cleaned_data (params_for d (user request) key) !! "requested_fields")
    as [rf|] eqn:Hf.
  2:{ left. exists blocks, "requested_fields". split; [reflexivity|]. split; [by left|].
      rewrite (view_retrieve _ _ _ _ _ _ Hd Hv Hu Hk). cbn zeta. rewrite Hb.
      unfold bind at 1, getitem at 1. rewrite Hf. reflexivity. }
  destruct (cleaned_data (params_for d (user request) key) !! "return_type")
    as [rt|] eqn:Hr.
  2:{ left. exists blocks, "return_type". split; [reflexivity|]. split; [by right|].
      rewrite (view_retrieve _ _ _ _ _ _ Hd Hv Hu Hk). cbn zeta. rewrite Hb.
      unfold bind at 1, getitem at 1. rewrite Hf.
      unfold ret at 1, bind at 1, getitem at 1. rewrite Hr. reflexivity. }
  right. exists blocks, rf, rt. split; [reflexivity|]. split; [reflexivity|].
  split; [reflexivity|]. cbn zeta.
  rewrite (view_serialize _ _ _ _ _ _ _ _ _ Hd Hv Hu Hk Hb Hf Hr).
  destruct (decide (rt = PyStr "dict")) as [Heq|Hne].
  - left. split; [exact Heq|]. rewrite bool_decide_eq_true_2 by exact Heq. reflexivity.
  - right. split; [exact Hne|]. rewrite bool_decide_eq_false_2 by exact Hne. reflexivity.
Qed.

(** *** Uniform computations *)

Lemma uniform_ret {A} (a : A) : uniform (ret (Transformer:=Transformer) (BlockStructure:=BlockStructure) a).
Proof. exists (Ok a), []. intros [h t]. unfold ret. cbn. by rewrite app_nil_r. Qed.

Lemma uniform_raise {A} (e : Exn) :
  uniform (raise (A:=A) (Transformer:=Transformer) (BlockStructure:=BlockStructure) e).
Proof. exists (Raise e), []. intros [h t]. unfold raise. cbn. by rewrite app_nil_r. Qed.

Lemma uniform_lift {A} (r : Res A) :
  uniform (lift (Transformer:=Transformer) (BlockStructure:=BlockStructure) r).
Proof. exists r, []. intros [h t]. unfold lift. cbn. by rewrite app_nil_r. Qed.

Lemma uniform_log (e : @Event Transformer BlockStructure) : uniform (log e).
Proof. exists (Ok ()), [e]. intros st. reflexivity. Qed.

Lemma uniform_getitem (d : gmap string PyVal) (name : string) :
  uniform (getitem (Transformer:=Transformer) (BlockStructure:=BlockStructure) d name).
Proof. unfold getitem. destruct (d !! name); [apply uniform_ret|apply uniform_raise]. Qed.

Lemma uniform_bind {A B} (m : @M Transformer BlockStructure A) (k : A → M B) :
  uniform m → (∀ a, uniform (k a)) → uniform (bind m k).
Proof.
  intros (r & evs & Hm) Hk. destruct r as [a|e].
  - destruct (Hk a) as (r' & evs' & Hka). exists r', (evs ++ evs'). intros st.
    unfold bind. rewrite Hm, Hka. cbn. by rewrite app_assoc.
  - exists (Raise e), evs. intros st. unfold bind. by rewrite Hm.
Qed.

Lemma uniform_try_except {A} (m : @M Transformer BlockStructure A) (h : Exn → M A) :
  uniform m → (∀ e, uniform (h e)) → uniform (try_except m h).
Proof.
  intros (r & evs & Hm) Hh. destruct r as [a|e].
  - exists (Ok a), evs. intros st. unfold try_except. by rewrite Hm.
  - destruct (Hh e) as (r' & evs' & Hhe). exists r', (evs ++ evs'). intros st.
    unfold try_except. rewrite Hm, Hhe. cbn. by rewrite app_assoc.
Qed.

(** Once the parameters are prepared, the view is uniform: what it
    returns and what it calls is decided by the bound form alone. *)
Lemma view_uniform (st : St) request key d :
  heap st !! GET request = Some d →
  ∃ r evs, ∀ (st' : St) d',
    heap st' !! GET request = Some d' →
    params_for d' (user request) key = params_for d (user request) key →
    view request key st' =
      (r, mkState (<[fresh (dom (heap st')) := requested_params_of d' key]> (heap st'))
            (trace st' ++ evs)).
Proof.
  intros _.
  set (params := params_for d (user request) key).
  assert (uniform
    (if negb (is_valid params)
     then raise (Transformer:=Transformer) (BlockStructure:=BlockStructure)
            (ValidationError (errors params))
     else
      bind
        (try_except
           (bind (getitem (cleaned_data params) "user") (λ u,
            bind (getitem (cleaned_data params) "usage_key") (λ k,
            call_get_course_blocks get_course_blocks u k
              (LMS_COURSE_TRANSFORMERS ++ [transformer_of params]))))
           (λ exception,
              match exception with
              | ItemNotFoundError message =>
                  raise (Http404 ("Course block not found: " +:+ message))
              | _ => raise exception
              end))
        (λ blocks,
         bind (getitem (cleaned_data params) "requested_fields") (λ requested_fields,
         bind (getitem (cleaned_data params) "return_type") (λ return_type,
         bind (if bool_decide (return_type = PyStr "dict")
               then call_BlockDictSerializer BlockDictSerializer blocks
                      (mkContext request blocks requested_fields)
               else call_BlockSerializer BlockSerializer blocks
                      (mkContext request blocks requested_fields))
           (λ data, ret (mkResponse data))))))) as (r & evs & Hm).
  { destruct (negb _); [apply uniform_raise|].
    apply uniform_bind.
    - apply uniform_try_except.
      + apply uniform_bind; [apply uniform_getitem|]. intros u.
        apply uniform_bind; [apply uniform_getitem|]. intros k.
        apply uniform_bind; [apply uniform_log|]. intros _. apply uniform_lift.
      + intros []; apply uniform_raise.
    - intros blocks.
      apply uniform_bind; [apply uniform_getitem|]. intros rf.
      apply uniform_bind; [apply uniform_getitem|]. intros rt.
      apply uniform_bind; [|intros; apply uniform_ret].
      destruct (bool_decide _);
        (apply uniform_bind; [apply uniform_log|intros _; apply uniform_lift]). }
  exists r, evs. intros st' d' Hd' Hp.
  rewrite (view_prepare _ _ _ _ Hd'). cbn zeta. rewrite Hp. fold params.
  specialize (Hm (prepared st' d' key)). cbn [heap trace] in Hm.
  rewrite <- Hm. destruct (negb _); reflexivity.
Qed.

(** *** The claims about the view *)

(** C1.  For a valid request the view calls [get_course_blocks] exactly
    once, and the transformers it passes are the fixed chain
    [LMS_COURSE_TRANSFORMERS] followed, as the last element, by the
    [BlocksAPITransformer] built from the cleaned [block_counts],
    [student_view_data], [depth] and [nav_depth]. *)
Theorem pipeline_is_lms_chain_then_blocks_api_transformer
    (st : St) request key d u k :
  heap st !! GET request = Some d →
  let params := params_for d (user request) key in
  let blocks_api_transformer :=
    BlocksAPITransformer
      (dict_get (cleaned_data params) "block_counts" (PyList []))
      (dict_get (cleaned_data params) "student_view_data" (PyList []))
      (dict_get (cleaned_data params) "depth" PyNone)
      (dict_get (cleaned_data params) "nav_depth" PyNone) in
  is_valid params = true →
  cleaned_data params !! "user" = Some u →
  cleaned_data params !! "usage_key" = Some k →
  ∃ ts rest,
    trace (view request key st).2 = trace st ++ CallGetCourseBlocks u k ts :: rest ∧
    ts = LMS_COURSE_TRANSFORMERS ++ [blocks_api_transformer] ∧
    last ts = Some blocks_api_transformer ∧
    Forall (λ e, is_pipeline_call e = false) rest.
Proof.
  intros Hd params bat Hv Hu Hk.
  exists (LMS_COURSE_TRANSFORMERS ++ [bat]).
  destruct (view_cases st request key) as [[Hn _]|(d' & Hd' & Hc)]; [congruence|].
  assert (d' = d) as -> by congruence. cbn zeta in Hc. fold params in Hc.
  change (transformer_of params) with bat in Hc.
  destruct Hc as [[Hv' _]|[(_ & [Hn|Hn] & _)|(_ & u' & k' & Hu' & Hk' & Hc)]];
    [congruence..|].
  assert (u' = u) as -> by congruence. assert (k' = k) as -> by congruence.
  cbn zeta in Hc.
  destruct Hc as [(e & e' & _ & Hrun)|[(b & name & _ & _ & Hrun)|(b & rf & rt & _ & _ & _ & Hc)]].
  - exists []. rewrite Hrun. cbn. repeat split; [apply last_snoc|constructor].
  - exists []. rewrite Hrun. cbn. repeat split; [apply last_snoc|constructor].
  - cbn zeta in Hc. destruct Hc as [[_ Hrun]|[_ Hrun]]; rewrite Hrun; cbn;
      eexists [_]; (repeat split; [apply last_snoc|repeat constructor]).
Qed.

(** C2.  When the form is not valid the view raises one
    [ValidationError] that carries the form's whole [errors] dict, and
    makes no call at all: neither [get_course_blocks] (hence no
    transformer) nor a serializer. *)
Theorem invalid_request_raises_validation_error (st : St) request key d :
  heap st !! GET request = Some d →
  is_valid (params_for d (user request) key) = false →
  (view request key st).1
    = Raise (ValidationError (errors (params_for d (user request) key))) ∧
  trace (view request key st).2 = trace st.
Proof.
  intros Hd Hv. rewrite (view_prepare _ _ _ _ Hd). cbn zeta. rewrite Hv. by cbn.
Qed.

(** C3.  When the root identifier passed validation and
    [get_course_blocks] finds no such block, the view raises [Http404]:
    not a [ValidationError], not a response; no serializer is called. *)
Theorem unknown_root_raises_http404 (st : St) request key d u k message :
  heap st !! GET request = Some d →
  let params := params_for d (user request) key in
  is_valid params = true →
  cleaned_data params !! "user" = Some u →
  cleaned_data params !! "usage_key" = Some k →
  get_course_blocks u k (LMS_COURSE_TRANSFORMERS ++ [transformer_of params])
    = Raise (ItemNotFoundError message) →
  (view request key st).1 = Raise (Http404 ("Course block not found: " +:+ message)) ∧
  (∀ errs, (view request key st).1 ≠ Raise (ValidationError errs)) ∧
  (∀ response, (view request key st).1 ≠ Ok response) ∧
  ∃ evs, trace (view request key st).2 = trace st ++ evs ∧
         Forall (λ e, is_serializer_call e = false) evs.
Proof.
  intros Hd params Hv Hu Hk Hb.
  rewrite (view_retrieve _ _ _ _ _ _ Hd Hv Hu Hk). cbn zeta. fold params. rewrite Hb.
  cbn. repeat split; try done. eexists [_]. split; [done|]. by repeat constructor.
Qed.

(** C4.  When [get_course_blocks] raises (block retrieval or a transformer
    failed), the view raises as well, and the only call it has made is
    that one: no serializer is invoked, no response is built. *)
Theorem failed_retrieval_is_never_serialized (st : St) request key d u k e :
  heap st !! GET request = Some d →
  let params := params_for d (user request) key in
  let ts := LMS_COURSE_TRANSFORMERS ++ [transformer_of params] in
  is_valid params = true →
  cleaned_data params !! "user" = Some u →
  cleaned_data params !! "usage_key" = Some k →
  get_course_blocks u k ts = Raise e →
  is_raise (view request key st).1 = true ∧
  (∀ response, (view request key st).1 ≠ Ok response) ∧
  ∃ evs, trace (view request key st).2 = trace st ++ evs ∧
         evs = [CallGetCourseBlocks u k ts] ∧
         Forall (λ ev, is_serializer_call ev = false) evs.
Proof.
  intros Hd params ts Hv Hu Hk Hb.
  rewrite (view_retrieve _ _ _ _ _ _ Hd Hv Hu Hk). cbn zeta. fold params ts. rewrite Hb.
  assert (∀ e' : Exn,
            is_raise (Raise (A:=@Response Data) e') = true ∧
            (∀ response : @Response Data, Raise e' ≠ Ok response)) as Hraise
    by (intros e'; split; [reflexivity|discriminate]).
  destruct e; cbn [fst snd heap trace]; (split; [apply Hraise|]);
    (split; [apply Hraise|]);
    (eexists; split; [reflexivity|]; split; [reflexivity|]);
    by repeat constructor.
Qed.

(** A response, when there is one, is the whole data of one serializer
    run on the blocks that [get_course_blocks] returned. *)
Lemma response_is_complete (st : St) request key data :
  (view request key st).1 = Ok (mkResponse data) →
  ∃ u k ts blocks ctx,
    get_course_blocks u k ts = Ok blocks ∧
    (BlockDictSerializer blocks ctx = Ok data ∨ BlockSerializer blocks ctx = Ok data).
Proof.
  intros Hr.
  destruct (view_cases st request key) as [[_ Hrun]|(d & Hd & Hc)];
    [rewrite Hrun in Hr; discriminate|].
  cbn zeta in Hc.
  destruct Hc as [[_ Hrun]|[(_ & _ & name & Hrun)|(_ & u & k & _ & _ & Hc)]];
    [rewrite Hrun in Hr; discriminate..|].
  cbn zeta in Hc.
  destruct Hc as [(e & e' & _ & Hrun)|[(b & name & _ & _ & Hrun)|(b & rf & rt & Hb & _ & _ & Hc)]];
    [rewrite Hrun in Hr; discriminate..|].
  cbn zeta in Hc.
  destruct Hc as [[_ Hrun]|[_ Hrun]]; rewrite Hrun in Hr; cbn [fst] in Hr.
  - destruct (BlockDictSerializer b (mkContext request b rf)) as [data'|] eqn:Hs;
      [|discriminate].
    inversion Hr; subst data'. eauto 10.
  - destruct (BlockSerializer b (mkContext request b rf)) as [data'|] eqn:Hs;
      [|discriminate].
    inversion Hr; subst data'. eauto 10.
Qed.




(** C10.  The view leaves the [QueryDict] at [request.GET] as it found
    it, and every other object of the heap too: the usage key is added
    to a copy, allocated apart from [request.GET]. *)
Theorem request_GET_is_not_mutated (st : St) request key :
  heap (view request key st).2 !! GET request = heap st !! GET request ∧
  (∀ l d, heap st !! l = Some d → heap (view request key st).2 !! l = Some d) ∧
  (∀ d, heap st !! GET request = Some d →
        fresh (dom (heap st)) ≠ GET request ∧
        heap (view request key st).2 !! fresh (dom (heap st))
          = Some (qd_update (qd_copy d) "usage_key" key)).
Proof.
  assert (heap (view request key st).2 = heap st ∨
          ∃ d, heap st !! GET request = Some d ∧
               heap (view request key st).2
                 = <[fresh (dom (heap st)) := requested_params_of d key]> (heap st))
    as Hheap.
  { destruct (view_cases st request key) as [[_ Hrun]|(d & Hd & Hc)];
      [left; by rewrite Hrun|].
    right. exists d. split; [exact Hd|]. cbn zeta in Hc.
    destruct Hc as [[_ Hrun]|[(_ & _ & name & Hrun)|(_ & u & k & _ & _ & Hc)]];
      [by rewrite Hrun..|].
    cbn zeta in Hc.
    destruct Hc as [(e & e' & _ & Hrun)|[(b & name & _ & _ & Hrun)|(b & rf & rt & _ & _ & _ & Hc)]];
      [by rewrite Hrun..|].
    cbn zeta in Hc. destruct Hc as [[_ Hrun]|[_ Hrun]]; by rewrite Hrun. }
  assert (∀ l d, heap st !! l = Some d → heap (view request key st).2 !! l = Some d)
    as Hkeep.
  { intros l d Hl. destruct Hheap as [->|(d' & _ & ->)]; [exact Hl|].
    rewrite lookup_insert_ne; [exact Hl|]. apply not_eq_sym. by eapply fresh_ne. }
  split; [|split; [exact Hkeep|]].
  - destruct (heap st !! GET request) as [d|] eqn:Hd; [by apply Hkeep|].
    destruct Hheap as [->|(d' & Hd' & _)]; [exact Hd|congruence].
  - intros d Hd. split; [apply not_eq_sym; by eapply fresh_ne|].
    destruct Hheap as [Heq|(d' & Hd' & ->)].
    + exfalso.
      destruct (view_cases st request key) as [[Hn _]|(d' & Hd' & Hc)]; [congruence|].
      assert (heap (view request key st).2 !! fresh (dom (heap st))
              = Some (requested_params_of d' key)) as Hnew; [|].
      { cbn zeta in Hc.
        destruct Hc as [[_ Hrun]|[(_ & _ & name & Hrun)|(_ & u & k & _ & _ & Hc)]];
          [rewrite Hrun; cbn; by rewrite lookup_insert_eq..|].
        cbn zeta in Hc.
        destruct Hc as [(e & e' & _ & Hrun)|[(b & name & _ & _ & Hrun)|(b & rf & rt & _ & _ & _ & Hc)]];
          [rewrite Hrun; cbn; by rewrite lookup_insert_eq..|].
        cbn zeta in Hc. destruct Hc as [[_ Hrun]|[_ Hrun]];
          rewrite Hrun; cbn; by rewrite lookup_insert_eq. }
      rewrite Heq in Hnew. apply (is_fresh (dom (heap st))).
      apply elem_of_dom. eauto.
    + assert (d' = d) as -> by congruence. by rewrite lookup_insert_eq.
Qed.

End ViewProperties.

(** * The view over the modelled collaborators *)

Import SpecModel.

(** ** The form *)

Lemma cleaned_data_add_field (name : string) (r : string + PyVal) (f : BoundForm) (key : string) :
  cleaned_data (add_field name r f) !! key =
    match r with
    | inr v => if decide (name = key) then Some v else cleaned_data f !! key
    | inl _ => cleaned_data f !! key
    end.
Proof.
  destruct r as [msg|v]; cbn; [reflexivity|].
  rewrite lookup_insert. by destruct (decide (name = key)).
Qed.

Lemma is_valid_add_field (name : string) (r : string + PyVal) (f : BoundForm) :
  is_valid (add_field name r f) = true → (∃ v, r = inr v) ∧ is_valid f = true.
Proof.
  unfold is_valid. destruct r as [msg|v]; cbn; intros Hv.
  - apply bool_decide_eq_true in Hv. by apply insert_non_empty in Hv.
  - eauto.
Qed.

(** A valid form has cleaned every field. *)
Lemma clean_valid (raw : gmap string Raw) (initial : gmap string PyVal) :
  is_valid (clean raw initial) = true →
  ∃ u k depth nav_depth return_type,
    clean_user initial = inr u ∧
    clean_usage_key raw = inr k ∧
    clean_depth raw = inr depth ∧
    clean_nav_depth raw = inr nav_depth ∧
    clean_return_type raw = inr return_type.
Proof.
  unfold clean. intros Hv.
  apply is_valid_add_field in Hv as [[u Hu] Hv].
  apply is_valid_add_field in Hv as [[k Hk] Hv].
  apply is_valid_add_field in Hv as [_ Hv].
  apply is_valid_add_field in Hv as [_ Hv].
  apply is_valid_add_field in Hv as [_ Hv].
  apply is_valid_add_field in Hv as [[depth Hdepth] Hv].
  apply is_valid_add_field in Hv as [[nav Hnav] Hv].
  apply is_valid_add_field in Hv as [[rt Hrt] Hv].
  eauto 10.
Qed.

(** The lookups of [cleaned_data], field by field. *)
Lemma cleaned_data_clean (raw : gmap string Raw) (initial : gmap string PyVal) :
  let cd := cleaned_data (clean raw initial) in
  cd !! "user" = (match clean_user initial with inr v => Some v | inl _ => None end) ∧
  cd !! "usage_key" = (match clean_usage_key raw with inr v => Some v | inl _ => None end) ∧
  cd !! "requested_fields"
    = Some (PySet (token_set (raw_list raw "requested_fields") ∩ requested_fields_vocabulary)) ∧
  cd !! "student_view_data" = Some (PySet (token_set (raw_list raw "student_view_data"))) ∧
  cd !! "block_counts" = Some (PySet (token_set (raw_list raw "block_counts"))) ∧
  cd !! "depth" = (match clean_depth raw with inr v => Some v | inl _ => None end) ∧
  cd !! "nav_depth" = (match clean_nav_depth raw with inr v => Some v | inl _ => None end) ∧
  cd !! "return_type" = (match clean_return_type raw with inr v => Some v | inl _ => None end).
Proof.
  cbn zeta. unfold clean.
  destruct (clean_user initial), (clean_usage_key raw), (clean_depth raw),
    (clean_nav_depth raw), (clean_return_type raw);
    repeat split; rewrite ?cleaned_data_add_field; reflexivity.
Qed.

Lemma raw_values_form (data : QueryDict) :
  raw_values (base_fields BlockListGetForm) data =
    list_to_map
      [("usage_key", RawValue (qd_get data "usage_key"));
       ("requested_fields", RawList (qd_getlist data "requested_fields"));
       ("student_view_data", RawList (qd_getlist data "student_view_data"));
       ("block_counts", RawList (qd_getlist data "block_counts"));
       ("depth", RawValue (qd_get data "depth"));
       ("nav_depth", RawValue (qd_get data "nav_depth"));
       ("return_type", RawValue (qd_get data "return_type"))].
Proof. reflexivity. Qed.

Ltac forget_query data :=
  rewrite (raw_values_form data);
  generalize (qd_get data "usage_key") (qd_get data "depth") (qd_get data "nav_depth")
    (qd_get data "return_type") (qd_getlist data "requested_fields")
    (qd_getlist data "student_view_data") (qd_getlist data "block_counts");
  intros;
  match goal with
  | |- context [ @lookup _ _ (gmap string Raw) _ ?k ?m ] =>
      let v := eval vm_compute in (m !! k) in change (m !! k) with v
  end;
  cbn beta iota.

Lemma raw_scalar_form (data : QueryDict) (name : string) :
  name ∈ ["usage_key"; "depth"; "nav_depth"; "return_type"] →
  raw_scalar (raw_values (base_fields BlockListGetForm) data) name
    = match qd_get data name with
      | Some "" => None
      | v => v
      end.
Proof.
  intros Hin.
  repeat (apply elem_of_cons in Hin as [->|Hin]); [..|by apply elem_of_nil in Hin];
    unfold raw_scalar; forget_query data;
    match goal with o : option string |- context [ match ?o' with _ => _ end ] =>
      destruct o' as [[|]|] end; reflexivity.
Qed.

Lemma raw_list_form (data : QueryDict) (name : string) :
  name ∈ ["requested_fields"; "student_view_data"; "block_counts"] →
  raw_list (raw_values (base_fields BlockListGetForm) data) name = qd_getlist data name.
Proof.
  intros Hin.
  repeat (apply elem_of_cons in Hin as [->|Hin]); [..|by apply elem_of_nil in Hin];
    unfold raw_list; forget_query data; reflexivity.
Qed.

(** ** Witnesses of the view's properties, on the example of spec section 8 *)

Lemma pipeline_is_lms_chain_then_blocks_api_transformer_witness :
  ∃ ts rest,
    trace (example_run [("block_counts", ["video"])] "course-block").2
      = [] ++ CallGetCourseBlocks (PyUser "anjali") (PyStr "course-block") ts :: rest ∧
    ts = [AccessTransformer] ++
         [BlocksAPITransformer (PySet {["video"]}) (PySet ∅) (PyInt 0) (PyInt 3)] ∧
    last ts = Some (BlocksAPITransformer (PySet {["video"]}) (PySet ∅) (PyInt 0) (PyInt 3)) ∧
    Forall (λ e, is_pipeline_call e = false) rest.
Proof.
  exact (pipeline_is_lms_chain_then_blocks_api_transformer
           BlockListGetForm LMS_COURSE_TRANSFORMERS BlocksAPITransformer
           (get_course_blocks example_store allow_all) BlockDictSerializer BlockSerializer
           (example_state (example_query [("block_counts", ["video"])]))
           example_request "course-block" (example_query [("block_counts", ["video"])])
           (PyUser "anjali") (PyStr "course-block")
           eq_refl eq_refl eq_refl eq_refl).
Defined.

Lemma invalid_request_raises_validation_error_witness :
  (example_run [("depth", ["x"]); ("return_type", ["xml"])] "course-block").1
    = Raise (ValidationError
               (<["depth" := ["Enter a whole number or all."]]>
                  (<["return_type" := ["Select a valid choice."]]> ∅))) ∧
  trace (example_run [("depth", ["x"]); ("return_type", ["xml"])] "course-block").2 = [].
Proof.
  exact (invalid_request_raises_validation_error
           BlockListGetForm LMS_COURSE_TRANSFORMERS BlocksAPITransformer
           (get_course_blocks example_store allow_all) BlockDictSerializer BlockSerializer
           (example_state (example_query [("depth", ["x"]); ("return_type", ["xml"])]))
           example_request "course-block"
           (example_query [("depth", ["x"]); ("return_type", ["xml"])])
           eq_refl eq_refl).
Defined.

Lemma unknown_root_raises_http404_witness :
  (example_run [] "nope").1 = Raise (Http404 "Course block not found: nope") ∧
  (∀ errs, (example_run [] "nope").1 ≠ Raise (ValidationError errs)) ∧
  (∀ response, (example_run [] "nope").1 ≠ Ok response) ∧
  ∃ evs, trace (example_run [] "nope").2 = [] ++ evs ∧
         Forall (λ e, is_serializer_call e = false) evs.
Proof.
  exact (unknown_root_raises_http404
           BlockListGetForm LMS_COURSE_TRANSFORMERS BlocksAPITransformer
           (get_course_blocks example_store allow_all) BlockDictSerializer BlockSerializer
           (example_state (example_query [])) example_request "nope" (example_query [])
           (PyUser "anjali") (PyStr "nope") "nope"
           eq_refl eq_refl eq_refl eq_refl eq_refl).
Defined.

Lemma failed_retrieval_is_never_serialized_witness :
  let run :=
    endpoint example_store (λ _ _ _, false) example_request "course-block"
      (example_state (example_query [])) in
  is_raise run.1 = true ∧
  (∀ response, run.1 ≠ Ok response) ∧
  ∃ evs, trace run.2 = [] ++ evs ∧
         evs = [CallGetCourseBlocks (PyUser "anjali") (PyStr "course-block")
                  ([AccessTransformer] ++
                   [BlocksAPITransformer (PySet ∅) (PySet ∅) (PyInt 0) (PyInt 3)])] ∧
         Forall (λ ev, is_serializer_call ev = false) evs.
Proof.
  exact (failed_retrieval_is_never_serialized
           BlockListGetForm LMS_COURSE_TRANSFORMERS BlocksAPITransformer
           (get_course_blocks example_store (λ _ _ _, false))
           BlockDictSerializer BlockSerializer
           (example_state (example_query [])) example_request "course-block"
           (example_query []) (PyUser "anjali") (PyStr "course-block")
           (PermissionDenied "course-block")
           eq_refl eq_refl eq_refl eq_refl eq_refl).
Defined.



(** ** The block graph *)

Lemma dom_drop_dangling (bs : gmap string Block) : dom (drop_dangling bs) = dom bs.
Proof. unfold drop_dangling. apply dom_fmap_L. Qed.

Lemma lookup_drop_dangling (bs : gmap string Block) (b : string) (blk : Block) :
  drop_dangling bs !! b = Some blk →
  ∃ blk0, bs !! b = Some blk0 ∧
          blk = set_children (filter (λ c, c ∈ dom bs) (children blk0)) blk0.
Proof.
  unfold drop_dangling. rewrite lookup_fmap. intros Hl.
  destruct (bs !! b) as [blk0|]; [|discriminate]. cbn in Hl. exists blk0. split; congruence.
Qed.



Lemma lookup_keep_only (keep : gset string) (bs : gmap string Block) (b : string)
    (blk : Block) :
  keep_only keep bs !! b = Some blk →
  b ∈ keep ∧ ∃ blk0, bs !! b = Some blk0 ∧ block_type blk = block_type blk0 ∧
                     children blk ⊆ children blk0.
Proof.
  unfold keep_only. intros Hl.
  apply lookup_drop_dangling in Hl as (blk0 & Hl & ->).
  apply map_lookup_filter_Some in Hl as [Hl Hk]. cbn in Hk.
  split; [exact Hk|]. exists blk0. split; [exact Hl|]. split; [reflexivity|].
  cbn. intros c Hc. by apply list_elem_of_filter in Hc as [_ Hc].
Qed.

Lemma elem_of_dom_keep_only (keep : gset string) (bs : gmap string Block) (b : string) :
  b ∈ dom (keep_only keep bs) ↔ b ∈ keep ∧ b ∈ dom bs.
Proof.
  unfold keep_only. rewrite dom_drop_dangling, !elem_of_dom. split.
  - intros [blk Hl]. apply map_lookup_filter_Some in Hl as [Hl Hk]. eauto.
  - intros [Hk [blk Hl]]. exists blk. by apply map_lookup_filter_Some.
Qed.

Lemma root_within (bs : gmap string Block) (r : string) (d : nat) : r ∈ within bs r d.
Proof. induction d as [|d IH]; cbn; set_solver. Qed.

Lemma within_S (bs : gmap string Block) (r : string) (d : nat) :
  within bs r d ⊆ within bs r (S d).
Proof. cbn. set_solver. Qed.

Lemma within_mono (bs : gmap string Block) (r : string) (d d' : nat) :
  (d ≤ d')%nat → within bs r d ⊆ within bs r d'.
Proof.
  induction 1 as [|d' _ IH]; [done|]. etrans; [exact IH|apply within_S].
Qed.

(** A child of a block within [d] levels is within [d + 1] levels. *)
Lemma within_child (bs : gmap string Block) (r b c : string) (blk : Block) (d : nat) :
  b ∈ within bs r d → bs !! b = Some blk → c ∈ children blk → c ∈ within bs r (S d).
Proof.
  intros Hb Hl Hc. cbn. apply elem_of_union_r, elem_of_list_to_set.
  apply list_elem_of_In, in_flat_map. exists b. split.
  - apply list_elem_of_In, elem_of_elements, Hb.
  - apply list_elem_of_In. unfold children_of. by rewrite Hl.
Qed.

(** ** The transformers *)

Lemma access_transform_inv (allowed : string → Block → bool) (g g1 : BlockGraph) :
  access_transform allowed g = Ok g1 →
  root g1 = root g ∧ root g ∈ dom (blocks g1) ∧
  ∃ keep bs, blocks g1 = keep_only keep bs.
Proof.
  unfold access_transform.
  set (visible := drop_dangling (filter (λ kv, allowed kv.1 kv.2 = true) (blocks g))).
  destruct (visible !! root g) as [blk|] eqn:Hroot; [|discriminate].
  intros [= <-]. cbn. split; [reflexivity|]. split; [|eauto].
  apply elem_of_dom_keep_only. split; [apply root_within|]. apply elem_of_dom. eauto.
Qed.

Lemma lookup_inject_view_data (types : list string) (bs : gmap string Block) (b : string)
    (blk : Block) :
  inject_view_data types bs !! b = Some blk →
  ∃ blk0, bs !! b = Some blk0 ∧ block_type blk = block_type blk0 ∧
          children blk = children blk0.
Proof.
  unfold inject_view_data. rewrite lookup_fmap. intros Hl.
  destruct (bs !! b) as [blk0|]; [|discriminate]. cbn in Hl. exists blk0.
  split; [reflexivity|]. injection Hl as <-.
  destruct (decide _); [destruct (student_view blk0)|]; done.
Qed.

Lemma dom_inject_view_data (types : list string) (bs : gmap string Block) :
  dom (inject_view_data types bs) = dom bs.
Proof. unfold inject_view_data. apply dom_fmap_L. Qed.

Lemma lookup_attach_counts (scope : gmap string Block) (types : list string)
    (bs bs' : gmap string Block) (b : string) (blk : Block) :
  attach_counts scope types bs = Some bs' →
  bs' !! b = Some blk →
  ∃ blk0, bs !! b = Some blk0 ∧ block_type blk = block_type blk0 ∧
          children blk = children blk0 ∧
          (types ≠ [] →
           ∃ m, counts_for scope types b = Some m ∧
                fields blk !! "block_counts" = Some (FCounts m)).
Proof.
  unfold attach_counts. destruct (decide (types = [])) as [->|Hne].
  { intros [= <-] Hl. exists blk. done. }
  destruct (decide _) as [Hall|]; [|discriminate]. intros [= <-].
  rewrite map_lookup_imap. destruct (bs !! b) as [blk0|] eqn:Hl; [|discriminate].
  cbn. intros [= <-]. exists blk0. split; [reflexivity|].
  destruct (Hall b blk0 Hl) as [m Hm]. rewrite Hm. cbn.
  repeat split. intros _. exists m. split; [reflexivity|]. by rewrite lookup_insert_eq.
Qed.

Lemma dom_attach_counts (scope : gmap string Block) (types : list string)
    (bs bs' : gmap string Block) :
  attach_counts scope types bs = Some bs' → dom bs' = dom bs.
Proof.
  unfold attach_counts. destruct (decide (types = [])); [by intros [= <-]|].
  destruct (decide _); [|discriminate]. intros [= <-].
  apply dom_imap_L. intros b. rewrite elem_of_dom. split.
  - intros [blk Hl]. exists blk. split; [exact Hl|]. eauto.
  - intros (blk & Hl & _). eauto.
Qed.

(** What a successful run of the pipeline of the view went through. *)
Lemma get_course_blocks_inv (store : gmap string Block)
    (access : User → string → Block → bool) (u k : string)
    (bc svd depth nav : PyVal) (g : BlockGraph) :
  get_course_blocks store access (PyUser u) (PyStr k)
    (LMS_COURSE_TRANSFORMERS ++ [BlocksAPITransformer bc svd depth nav]) = Ok g →
  ∃ g1 bs,
    access_transform (access u) (mkGraph k store) = Ok g1 ∧
    root g1 = k ∧
    attach_counts (blocks g1) (tokens bc)
      (inject_view_data (tokens svd) (blocks (shape depth nav g1))) = Some bs ∧
    g = mkGraph k bs.
Proof.
  unfold get_course_blocks. destruct (store !! k); [|discriminate].
  cbn. destruct (access_transform _ _) as [g1|] eqn:Ha; [|discriminate].
  unfold blocks_api_transform.
  destruct (attach_counts _ _ _) as [bs|] eqn:Hc; [|discriminate].
  intros [= <-]. exists g1, bs.
  destruct (access_transform_inv _ _ _ Ha) as (Hr & _ & _). cbn in Hr.
  rewrite Hr. done.
Qed.

(** A block of the final graph is a block of the shaped graph, with the
    same type and the same children. *)
Lemma final_block_shaped (g1 : BlockGraph) (bc svd depth nav : PyVal)
    (bs : gmap string Block) (b : string) (blk : Block) :
  attach_counts (blocks g1) (tokens bc)
    (inject_view_data (tokens svd) (blocks (shape depth nav g1))) = Some bs →
  bs !! b = Some blk →
  ∃ blk2, blocks (shape depth nav g1) !! b = Some blk2 ∧
          block_type blk = block_type blk2 ∧ children blk = children blk2.
Proof.
  intros Hc Hl.
  destruct (lookup_attach_counts _ _ _ _ _ _ Hc Hl) as (blk1 & Hl1 & Ht1 & Hc1 & _).
  destruct (lookup_inject_view_data _ _ _ _ Hl1) as (blk2 & Hl2 & Ht2 & Hc2).
  exists blk2. split; [exact Hl2|]. split; congruence.
Qed.

Lemma dom_final (g1 : BlockGraph) (bc svd depth nav : PyVal) (bs : gmap string Block) :
  attach_counts (blocks g1) (tokens bc)
    (inject_view_data (tokens svd) (blocks (shape depth nav g1))) = Some bs →
  dom bs = dom (blocks (shape depth nav g1)).
Proof.
  intros Hc. rewrite (dom_attach_counts _ _ _ _ Hc). apply dom_inject_view_data.
Qed.


Lemma lookup_depth_truncate (g1 : BlockGraph) (depth : option nat) (b : string)
    (blk : Block) :
  blocks (depth_truncate depth g1) !! b = Some blk →
  ∃ blk1, blocks g1 !! b = Some blk1 ∧ block_type blk = block_type blk1 ∧
          children blk ⊆ children blk1.
Proof.
  destruct depth as [d|]; cbn.
  - intros Hl. by apply lookup_keep_only in Hl as [_ Hl].
  - intros Hl. by exists blk.
Qed.

Lemma lookup_nav_collapse (g2 : BlockGraph) (nav : option nat) (b : string) (blk : Block) :
  blocks (nav_collapse nav g2) !! b = Some blk →
  ∃ blk2, blocks g2 !! b = Some blk2 ∧ block_type blk = block_type blk2 ∧
          children blk ⊆ children blk2.
Proof.
  destruct nav as [n|]; cbn.
  - intros Hl. by apply lookup_keep_only in Hl as [_ Hl].
  - intros Hl. by exists blk.
Qed.

Lemma root_depth_truncate (g1 : BlockGraph) (depth : option nat) :
  root (depth_truncate depth g1) = root g1.
Proof. by destruct depth. Qed.

Lemma lookup_shape (g1 : BlockGraph) (depth nav : PyVal) (b : string) (blk : Block) :
  blocks (shape depth nav g1) !! b = Some blk →
  ∃ blk1, blocks g1 !! b = Some blk1 ∧ block_type blk = block_type blk1 ∧
          children blk ⊆ children blk1.
Proof.
  unfold shape. intros Hl.
  apply lookup_nav_collapse in Hl as (blk2 & Hl & Ht2 & Hc2).
  apply lookup_depth_truncate in Hl as (blk1 & Hl & Ht1 & Hc1).
  exists blk1. split; [exact Hl|]. split; [congruence|]. by etrans.
Qed.


(** ** Counting *)

Lemma count_at_unfold (fuel : nat) (bs : gmap string Block) (T b : string) :
  count_at fuel bs T b =
    match bs !! b with
    | None => Some 0
    | Some blk =>
        match fuel with
        | O => None
        | S f =>
            cs ← mapM (count_at f bs T) (children blk);
            Some (own_count T blk + sum_list cs)
        end
    end.
Proof. by destruct fuel. Qed.

(** More fuel never changes a count that was reached. *)
Lemma count_at_mono (bs : gmap string Block) (T : string) (fuel : nat) :
  ∀ b n, count_at fuel bs T b = Some n → count_at (S fuel) bs T b = Some n.
Proof.
  induction fuel as [|f IH]; intros b n; rewrite !(count_at_unfold _ bs T b);
    destruct (bs !! b) as [blk|]; try done.
  destruct (mapM (count_at f bs T) (children blk)) as [cs|] eqn:Hcs; [|discriminate].
  intros Hn. cbn in Hn. injection Hn as <-.
  assert (mapM (count_at (S f) bs T) (children blk) = Some cs) as ->; [|done].
  apply mapM_Some. apply mapM_Some in Hcs.
  eapply Forall2_impl; [exact Hcs|]. intros c x. apply IH.
Qed.

(** The bottom-up rule, at the bound used by the aggregator. *)
Lemma subtree_count_children (bs : gmap string Block) (T b : string) (blk : Block) (n : nat) :
  bs !! b = Some blk → subtree_count bs T b = Some n →
  ∃ ns, mapM (subtree_count bs T) (children blk) = Some ns ∧
        n = own_count T blk + sum_list ns.
Proof.
  unfold subtree_count. intros Hl. rewrite count_at_unfold, Hl.
  destruct (size bs) as [|f]; [discriminate|].
  destruct (mapM (count_at f bs T) (children blk)) as [cs|] eqn:Hcs; [|discriminate].
  intros Hn. cbn in Hn. injection Hn as <-. exists cs. split; [|reflexivity].
  apply mapM_Some. apply mapM_Some in Hcs.
  eapply Forall2_impl; [exact Hcs|]. intros c x. apply count_at_mono.
Qed.

Lemma counts_for_lookup (bs : gmap string Block) (types : list string) (b T : string)
    (m : gmap string nat) :
  counts_for bs types b = Some m → T ∈ types →
  ∃ n, subtree_count bs T b = Some n ∧ m !! T = Some n.
Proof.
  unfold counts_for.
  destruct (mapM (λ T, subtree_count bs T b) types) as [ns|] eqn:Hns; [|discriminate].
  cbn. intros [= <-]. apply mapM_Some in Hns.
  induction Hns as [|T' n types ns Hn _ IH]; intros HT; [by apply elem_of_nil in HT|].
  cbn. destruct (decide (T = T')) as [->|Hne].
  - exists n. by rewrite lookup_insert_eq.
  - apply elem_of_cons in HT as [?|HT]; [done|].
    destruct (IH HT) as (n' & Hn' & Hl). exists n'. by rewrite lookup_insert_ne.
Qed.

(** The count a block of the final graph carries is its subtree count in
    the graph the access filter left. *)
Lemma final_block_count (g1 : BlockGraph) (bc svd depth nav : PyVal)
    (bs : gmap string Block) (b T : string) (blk : Block) :
  attach_counts (blocks g1) (tokens bc)
    (inject_view_data (tokens svd) (blocks (shape depth nav g1))) = Some bs →
  bs !! b = Some blk → T ∈ tokens bc →
  subtree_count (blocks g1) T b = Some (block_count T blk).
Proof.
  intros Hc Hl HT.
  destruct (lookup_attach_counts _ _ _ _ _ _ Hc Hl) as (blk0 & _ & _ & _ & Hm).
  destruct Hm as (m & Hm & Hf);
    [intros Hnil; rewrite Hnil in HT; by apply elem_of_nil in HT|].
  destruct (counts_for_lookup _ _ _ _ _ Hm HT) as (n & Hn & HmT).
  unfold block_count. by rewrite Hf, HmT.
Qed.

(** ** Claims about the counts *)

(** C5, as the pipeline has it.  For every block of the final output and
    every type [T] of [block_counts], the count the block carries is its own
    match plus the sum of the counts of its children in the graph the access
    filter left, before depth and navigation shaping; and every block of
    the output carries exactly its count in that graph. *)
Theorem block_count_sums_access_filtered_children
    (store : gmap string Block) (access : User → string → Block → bool) (u k : string)
    (bc svd depth nav : PyVal) (g : BlockGraph) (b T : string) (blk : Block) :
  get_course_blocks store access (PyUser u) (PyStr k)
    (LMS_COURSE_TRANSFORMERS ++ [BlocksAPITransformer bc svd depth nav]) = Ok g →
  blocks g !! b = Some blk →
  T ∈ tokens bc →
  ∃ g1 blk1 ns,
    access_transform (access u) (mkGraph k store) = Ok g1 ∧
    blocks g1 !! b = Some blk1 ∧
    mapM (subtree_count (blocks g1) T) (children blk1) = Some ns ∧
    block_count T blk = own_count T blk + sum_list ns ∧
    subtree_count (blocks g1) T b = Some (block_count T blk).
Proof.
  intros Hg Hl HT.
  destruct (get_course_blocks_inv _ _ _ _ _ _ _ _ _ Hg) as (g1 & bs & Ha & Hr & Hc & ->).
  cbn in Hl.
  destruct (final_block_shaped _ _ _ _ _ _ _ _ Hc Hl) as (blk2 & Hl2 & Ht2 & _).
  destruct (lookup_shape _ _ _ _ _ Hl2) as (blk1 & Hl1 & Ht1 & _).
  pose proof (final_block_count _ _ _ _ _ _ _ _ _ Hc Hl HT) as Hn.
  destruct (subtree_count_children _ _ _ _ _ Hl1 Hn) as (ns & Hns & Hsum).
  exists g1, blk1, ns. repeat split; try done.
  rewrite Hsum. unfold own_count. by rewrite Ht2, Ht1.
Qed.

Lemma block_count_sums_access_filtered_children_witness :
  ∃ g1 blk1 ns,
    access_transform (allow_all "anjali") (mkGraph "course-block" example_store) = Ok g1 ∧
    blocks g1 !! "course-block" = Some blk1 ∧
    mapM (subtree_count (blocks g1) "video") (children blk1) = Some ns ∧
    1 = 0 + sum_list ns ∧
    subtree_count (blocks g1) "video" "course-block" = Some 1.
Proof.
  refine (block_count_sums_access_filtered_children
            example_store allow_all "anjali" "course-block"
            (PySet {["video"]}) (PySet ∅) (PyInt 0) (PyInt 3)
            (mkGraph "course-block"
               {["course-block" :=
                   mkBlock "course" "Course" [] None
                     {["block_counts" := FCounts {["video" := 1]}]}]})
            "course-block" "video"
            (mkBlock "course" "Course" [] None
               {["block_counts" := FCounts {["video" := 1]}]})
            _ _ _).
  - vm_compute. reflexivity.
  - vm_compute. reflexivity.
  - vm_compute. apply list_elem_of_here.
Defined.

(** With depth 0 the root of the example keeps its count of one video
    while no child survives: the sum over the surviving children is not the
    count. *)
Lemma depth_truncation_breaks_count_sum :
  ∃ g blk,
    get_course_blocks example_store allow_all (PyUser "anjali") (PyStr "course-block")
      (LMS_COURSE_TRANSFORMERS ++
       [BlocksAPITransformer (PySet {["video"]}) (PySet ∅) (PyInt 0) (PyInt 3)]) = Ok g ∧
    blocks g = {["course-block" := blk]} ∧
    children blk = [] ∧ block_type blk = "course" ∧ block_count "video" blk = 1 ∧
    ¬ counts_consistent ["video"] g.
Proof.
  eexists. eexists. split; [vm_compute; reflexivity|].
  split; [vm_compute; reflexivity|].
  repeat split.
  intros Hcons.
  pose proof (Hcons "course-block" _ "video" eq_refl (list_elem_of_here _ _)) as Hx.
  vm_compute in Hx. discriminate.
Qed.

(** ** Closed children lists *)

Lemma lookup_dict_records (g : BlockGraph) (ctx : Context) (root_id b : string)
    (records : gmap string BlockRecord) :
  BlockDictSerializer g ctx = Ok (DictData root_id records) →
  root_id = root g ∧
  dom records = dom (blocks g) ∧
  records !! b = record_of (tokens (ctx_requested_fields ctx)) b <$> blocks g !! b.
Proof.
  unfold BlockDictSerializer. intros [= <- <-]. split; [reflexivity|]. split.
  - apply dom_imap_L. intros i. rewrite elem_of_dom. split.
    + intros [blk Hl]. exists blk. eauto.
    + intros (blk & Hl & _). eauto.
  - rewrite map_lookup_imap. by destruct (blocks g !! b).
Qed.


(** ** The traversal of list mode *)




Lemma preorder_in_dom (bs : gmap string Block) (fuel : nat) :
  ∀ todo seen b, b ∈ preorder fuel bs todo seen → b ∈ dom bs.
Proof.
  induction fuel as [|f IH]; intros todo seen b; cbn; [by intros ?%elem_of_nil|].
  destruct todo as [|t rest]; [by intros ?%elem_of_nil|].
  destruct (decide (t ∈ seen)); [apply IH|].
  destruct (bs !! t) as [blk|] eqn:Hl; [|apply IH].
  intros [->|Hin]%elem_of_cons; [apply elem_of_dom; eauto|by eapply IH].
Qed.



(** The records of list mode are those of the traversal, in its order. *)
Lemma list_records_ids (g : BlockGraph) (requested : list string) :
  rec_id <$> omap (λ b, record_of requested b <$> blocks g !! b) (traversal g)
    = traversal g.
Proof.
  assert (∀ l : list string,
            (∀ b, b ∈ l → b ∈ dom (blocks g)) →
            rec_id <$> omap (λ b, record_of requested b <$> blocks g !! b) l = l) as Hl.
  { induction l as [|b l IH]; intros Hdom; [reflexivity|]. cbn.
    pose proof (Hdom b (list_elem_of_here _ _)) as Hin.
    apply elem_of_dom in Hin as [blk Hb]. rewrite Hb. cbn. f_equal. apply IH. intros b' Hb'. apply Hdom.
    by apply list_elem_of_further. }
  apply Hl. intros b Hb. unfold traversal in Hb. by eapply preorder_in_dom.
Qed.

(** ** Depth zero *)

(** With depth 0 the final graph holds the root and nothing else. *)
Lemma depth_zero_keeps_root_only (store : gmap string Block)
    (access : User → string → Block → bool) (u k : string)
    (bc svd nav : PyVal) (g : BlockGraph) :
  get_course_blocks store access (PyUser u) (PyStr k)
    (LMS_COURSE_TRANSFORMERS ++ [BlocksAPITransformer bc svd (PyInt 0) nav]) = Ok g →
  root g = k ∧ ∃ blk, blocks g = {[k := blk]}.
Proof.
  intros Hg.
  destruct (get_course_blocks_inv _ _ _ _ _ _ _ _ _ Hg) as (g1 & bs & Ha & Hroot & Hc & ->).
  split; [reflexivity|]. cbn. apply dom_singleton_inv_L.
  rewrite (dom_final _ _ _ _ _ _ Hc).
  destruct (access_transform_inv _ _ _ Ha) as (_ & Hin & _). cbn in Hin.
  unfold shape. cbn [bound Z.to_nat depth_truncate]. rewrite Hroot.
  assert (dom (keep_only {[k]} (blocks g1)) = {[k]}) as Hdom.
  { apply set_eq. intros b. rewrite elem_of_dom_keep_only. set_solver. }
  destruct (bound nav) as [n|]; cbn [nav_collapse blocks root]; [|exact Hdom].
  apply set_eq. intros b. rewrite elem_of_dom_keep_only.
  match goal with
  | |- context [ dom ?m ] => change (dom m) with (dom (keep_only {[k]} (blocks g1)))
  end.
  rewrite Hdom. split; [tauto|].
  intros Hb. split; [|exact Hb]. apply elem_of_singleton in Hb as ->. apply root_within.
Qed.

(** Nothing is visited once every block has been seen. *)
Lemma preorder_all_seen (bs : gmap string Block) (seen : gset string) (fuel : nat) :
  dom bs ⊆ seen → ∀ todo, preorder fuel bs todo seen = [].
Proof.
  intros Hseen. induction fuel as [|f IH]; intros todo; [reflexivity|].
  destruct todo as [|b rest]; [reflexivity|]. cbn.
  destruct (decide (b ∈ seen)) as [|Hb]; [apply IH|].
  destruct (bs !! b) as [blk|] eqn:Hl; [|apply IH].
  exfalso. apply Hb, Hseen, elem_of_dom. eauto.
Qed.

Lemma traversal_singleton (k : string) (blk : Block) :
  traversal (mkGraph k {[k := blk]}) = [k].
Proof.
  unfold traversal. cbn [blocks root preorder].
  destruct (decide (k ∈ (∅ : gset string))) as [Hk|_]; [set_solver|].
  rewrite lookup_singleton_eq. f_equal. apply preorder_all_seen.
  rewrite dom_singleton_L. set_solver.
Qed.

Lemma serializers_singleton (k : string) (blk : Block) (ctx : Context) :
  let r := record_of (tokens (ctx_requested_fields ctx)) k blk in
  BlockSerializer (mkGraph k {[k := blk]}) ctx = Ok (ListData [r]) ∧
  BlockDictSerializer (mkGraph k {[k := blk]}) ctx = Ok (DictData k {[k := r]}).
Proof.
  cbn zeta. split.
  - unfold BlockSerializer. rewrite traversal_singleton. cbn.
    by rewrite lookup_singleton_eq.
  - unfold BlockDictSerializer. cbn [root blocks]. do 2 f_equal.
    rewrite <- insert_empty.
    rewrite (map_imap_insert_Some _ _ _ _ _ eq_refl). by rewrite map_imap_empty.
Qed.

(** ** The endpoint *)

Lemma requested_params_get_other (d : QueryDict) (key name : string) :
  name ≠ "usage_key" → qd_get (requested_params_of d key) name = qd_get d name.
Proof. intros Hne. unfold qd_get. by rewrite requested_params_other. Qed.

(** What a response of the endpoint went through. *)
Lemma endpoint_ok (store : gmap string Block) (access : User → string → Block → bool)
    (st : @State Transformer BlockGraph) (request : Request) (key : string)
    (d : QueryDict) (data : Data) :
  heap st !! GET request = Some d →
  (endpoint store access request key st).1 = Ok (mkResponse data) →
  let raw := raw_values (base_fields BlockListGetForm) (requested_params_of d key) in
  let requested :=
    PySet (token_set (raw_list raw "requested_fields") ∩ requested_fields_vocabulary) in
  ∃ depth nav return_type g,
    clean_depth raw = inr depth ∧
    clean_nav_depth raw = inr nav ∧
    clean_return_type raw = inr return_type ∧
    get_course_blocks store access (PyUser (user request)) (PyStr key)
      (LMS_COURSE_TRANSFORMERS ++
       [BlocksAPITransformer (PySet (token_set (raw_list raw "block_counts")))
          (PySet (token_set (raw_list raw "student_view_data"))) depth nav]) = Ok g ∧
    ((return_type = PyStr "dict" ∧
      BlockDictSerializer g (mkContext request g requested) = Ok data) ∨
     (return_type ≠ PyStr "dict" ∧
      BlockSerializer g (mkContext request g requested) = Ok data)).
Proof.
  intros Hd Hr raw requested. unfold endpoint in Hr.
  destruct (view_cases BlockListGetForm LMS_COURSE_TRANSFORMERS BlocksAPITransformer
              (get_course_blocks store access) BlockDictSerializer BlockSerializer
              st request key) as [[Hn _]|(d' & Hd' & Hc)]; [congruence|].
  assert (d' = d) as -> by congruence. cbn zeta in Hc.
  destruct Hc as [[_ Hrun]|[(_ & _ & name & Hrun)|(Hv & u & k & Hu & Hk & Hc)]];
    [rewrite Hrun in Hr; discriminate..|].
  cbn zeta in Hc.
  destruct Hc as [(e & e' & _ & Hrun)|[(b & name & _ & _ & Hrun)|(g & rf & rt & Hg & Hrf & Hrt & Hc)]];
    [rewrite Hrun in Hr; discriminate..|].
  cbn zeta in Hc.
  unfold params_of, bind_form in Hv, Hu, Hk, Hg, Hrf, Hrt. cbn [full_clean BlockListGetForm] in *.
  fold raw in Hv, Hu, Hk, Hg, Hrf, Hrt.
  destruct (clean_valid _ _ Hv) as (u' & k' & depth & nav & rt' & Hcu & Hck & Hcd & Hcn & Hcr).
  destruct (cleaned_data_clean raw {["requesting_user" := PyUser (user request)]})
    as (Hlu & Hlk & Hlf & Hls & Hlb & Hld & Hln & Hlr).
  cbn zeta in *.
  unfold blocks_api_transformer_of, dict_get in Hg.
  rewrite Hlb, Hls, Hld, Hln, Hcd, Hcn in Hg.
  rewrite Hlu, Hcu in Hu. rewrite Hlk, Hck in Hk. rewrite Hlf in Hrf. rewrite Hlr, Hcr in Hrt.
  injection Hu as <-. injection Hk as <-. injection Hrf as <-. injection Hrt as <-.
  unfold clean_user in Hcu. rewrite lookup_singleton_eq in Hcu. injection Hcu as <-.
  unfold clean_usage_key, raw in Hck. rewrite raw_scalar_form in Hck by repeat constructor.
  rewrite requested_params_usage_key in Hck.
  destruct key as [|a key']; [discriminate|]. injection Hck as <-.
  exists depth, nav, rt', g. repeat split; try done.
  destruct Hc as [[Heq Hrun]|[Hne Hrun]]; rewrite Hrun in Hr; cbn [fst] in Hr.
  - left. split; [exact Heq|]. fold requested in Hr.
    destruct (BlockDictSerializer g _) as [data'|]; [|discriminate]. by inversion Hr.
  - right. split; [exact Hne|]. fold requested in Hr.
    destruct (BlockSerializer g _) as [data'|]; [|discriminate]. by inversion Hr.
Qed.

(** A response went through the retrieval with this request's transformer
    and through the serializer its [return_type] chose. *)
Lemma endpoint_retrieval (store : gmap string Block)
    (access : User → string → Block → bool)
    (st : @State Transformer BlockGraph) (request : Request) (key : string)
    (d : QueryDict) (data : Data) :
  heap st !! GET request = Some d →
  (endpoint store access request key st).1 = Ok (mkResponse data) →
  let params := params_of BlockListGetForm d (user request) key in
  ∃ g requested return_type,
    cleaned_data params !! "return_type" = Some return_type ∧
    get_course_blocks store access (PyUser (user request)) (PyStr key)
      (LMS_COURSE_TRANSFORMERS ++ [blocks_api_transformer_of BlocksAPITransformer params])
      = Ok g ∧
    ((return_type = PyStr "dict" ∧
      BlockDictSerializer g (mkContext request g requested) = Ok data) ∨
     (return_type ≠ PyStr "dict" ∧
      BlockSerializer g (mkContext request g requested) = Ok data)).
Proof.
  intros Hd Hr params. unfold endpoint in Hr.
  destruct (view_cases BlockListGetForm LMS_COURSE_TRANSFORMERS BlocksAPITransformer
              (get_course_blocks store access) BlockDictSerializer BlockSerializer
              st request key) as [[Hn _]|(d' & Hd' & Hc)]; [congruence|].
  assert (d' = d) as -> by congruence. cbn zeta in Hc. fold params in Hc.
  destruct Hc as [[_ Hrun]|[(_ & _ & name & Hrun)|(Hv & u & k & Hu & Hk & Hc)]];
    [rewrite Hrun in Hr; discriminate..|].
  cbn zeta in Hc.
  destruct Hc as [(e & e' & _ & Hrun)|[(b & name & _ & _ & Hrun)|(g & rf & rt & Hg & Hrf & Hrt & Hc)]];
    [rewrite Hrun in Hr; discriminate..|].
  cbn zeta in Hc.
  assert (u = PyUser (user request) ∧ k = PyStr key) as [-> ->].
  { pose proof Hv as Hv'. unfold params, params_of, bind_form in Hv', Hu, Hk.
    cbn [full_clean BlockListGetForm] in Hv', Hu, Hk.
    destruct (clean_valid _ _ Hv') as (u' & k' & _ & _ & _ & Hcu & Hck & _).
    destruct (cleaned_data_clean
                (raw_values (base_fields BlockListGetForm) (requested_params_of d key))
                {["requesting_user" := PyUser (user request)]}) as (Hlu & Hlk & _).
    cbn zeta in Hlu, Hlk. rewrite Hlu, Hcu in Hu. rewrite Hlk, Hck in Hk.
    injection Hu as <-. injection Hk as <-.
    unfold clean_user in Hcu. rewrite lookup_singleton_eq in Hcu. injection Hcu as <-.
    unfold clean_usage_key in Hck. rewrite raw_scalar_form in Hck by repeat constructor.
    rewrite requested_params_usage_key in Hck.
    destruct key as [|a key']; [discriminate|]. by injection Hck as <-. }
  exists g, rf, rt. split; [exact Hrt|]. split; [exact Hg|].
  destruct Hc as [[Heq Hrun]|[Hne Hrun]]; rewrite Hrun in Hr; cbn [fst] in Hr.
  - left. split; [exact Heq|].
    destruct (BlockDictSerializer g _) as [data'|]; [|discriminate]. by inversion Hr.
  - right. split; [exact Hne|].
    destruct (BlockSerializer g _) as [data'|]; [|discriminate]. by inversion Hr.
Qed.

(** ** Claims about the children lists *)


(** ** Claims about the response *)

(** C7.  The response shape follows [return_type].  With [dict], which is
    also what the form gives when the parameter is absent, the data is a
    mapping with the root id and one record per block of the graph that
    the pipeline returned for this request's transformer, keyed by the
    block's id.  With [list] it is the sequence of the records of that
    graph's blocks in traversal order. *)
Theorem return_type_selects_response_shape
    (store : gmap string Block) (access : User → string → Block → bool)
    (st : @State Transformer BlockGraph) (request : Request) (key : string)
    (d : QueryDict) (data : Data) :
  heap st !! GET request = Some d →
  (endpoint store access request key st).1 = Ok (mkResponse data) →
  (qd_get d "return_type" = None →
   cleaned_data (params_of BlockListGetForm d (user request) key) !! "return_type"
     = Some (PyStr "dict")) ∧
  ∃ g,
    get_course_blocks store access (PyUser (user request)) (PyStr key)
      (LMS_COURSE_TRANSFORMERS ++
       [blocks_api_transformer_of BlocksAPITransformer
          (params_of BlockListGetForm d (user request) key)]) = Ok g ∧
    (qd_get d "return_type" = None ∨ qd_get d "return_type" = Some "dict" →
     ∃ records, data = DictData key records ∧
                dom records = dom (blocks g) ∧
                ∀ b r, records !! b = Some r → rec_id r = b) ∧
    (qd_get d "return_type" = Some "list" →
     ∃ records, data = ListData records ∧
                rec_id <$> records = traversal g ∧
                ∀ r, r ∈ records → rec_id r ∈ dom (blocks g)).
Proof.
  intros Hd Hr.
  assert (cleaned_data (params_of BlockListGetForm d (user request) key) !! "return_type"
          = match match qd_get d "return_type" with Some "" => None | v => v end with
            | None => Some (PyStr "dict")
            | Some s => if decide (s = "dict" ∨ s = "list") then Some (PyStr s) else None
            end) as Hclean.
  { unfold params_of, bind_form. cbn [full_clean BlockListGetForm].
    destruct (cleaned_data_clean
                (raw_values (base_fields BlockListGetForm) (requested_params_of d key))
                {["requesting_user" := PyUser (user request)]})
      as (_ & _ & _ & _ & _ & _ & _ & ->).
    unfold clean_return_type. rewrite raw_scalar_form by repeat constructor.
    rewrite requested_params_get_other by done.
    destruct (qd_get d "return_type") as [[|a s']|]; try reflexivity.
    by destruct (decide _). }
  split; [intros Hnone; by rewrite Hclean, Hnone|].
  destruct (endpoint_retrieval _ _ _ _ _ _ _ Hd Hr) as (g & rf & rt & Hrt & Hg & Hs).
  exists g. split; [exact Hg|].
  rewrite Hclean in Hrt.
  pose proof Hg as Hg'. unfold blocks_api_transformer_of in Hg'.
  destruct (get_course_blocks_inv _ _ _ _ _ _ _ _ _ Hg') as (g1 & bs & _ & _ & _ & Hgeq).
  split.
  - intros Hq.
    assert (rt = PyStr "dict") as ->.
    { destruct Hq as [Hq|Hq]; rewrite Hq in Hrt; vm_compute in Hrt; congruence. }
    destruct Hs as [[_ Hs]|[Hne _]]; [|done].
    unfold BlockDictSerializer in Hs. injection Hs as <-.
    eexists. split; [by rewrite Hgeq|]. split.
    + apply dom_imap_L. intros b. rewrite elem_of_dom. split.
      * intros [blk Hl]. exists blk. eauto.
      * intros (blk & Hl & _). eauto.
    + intros b r. rewrite map_lookup_imap. destruct (blocks g !! b); [|discriminate].
      cbn. by intros [= <-].
  - intros Hq. rewrite Hq in Hrt. vm_compute in Hrt. injection Hrt as <-.
    destruct Hs as [[Heq _]|[_ Hs]]; [discriminate|].
    unfold BlockSerializer in Hs. injection Hs as <-.
    eexists. split; [reflexivity|]. split; [apply list_records_ids|].
    intros r Hin. apply list_elem_of_omap in Hin as (b & _ & Hb).
    destruct (blocks g !! b) as [blk|] eqn:Hl; [|discriminate].
    cbn in Hb. injection Hb as <-. cbn. apply elem_of_dom. eauto.
Qed.

(** C8.  An absent [depth] is cleaned to 0; and when [depth] is absent or
    0 and [children] is not a requested field, a response holds exactly one
    record, the root's: alone in the list, or as the only entry of the
    [blocks] mapping. *)
Theorem depth_zero_returns_root_only
    (store : gmap string Block) (access : User → string → Block → bool)
    (st : @State Transformer BlockGraph) (request : Request) (key : string)
    (d : QueryDict) (data : Data) :
  heap st !! GET request = Some d →
  qd_get d "depth" = None ∨ qd_get d "depth" = Some "0" →
  "children" ∉ token_set (qd_getlist d "requested_fields") →
  (endpoint store access request key st).1 = Ok (mkResponse data) →
  (qd_get d "depth" = None →
   cleaned_data (params_of BlockListGetForm d (user request) key) !! "depth"
     = Some (PyInt 0)) ∧
  ∃ r, rec_id r = key ∧ rec_children r = None ∧
       (data = ListData [r] ∨ data = DictData key {[key := r]}).
Proof.
  intros Hd Hdepth Hchildren Hr.
  assert (raw_scalar (raw_values (base_fields BlockListGetForm) (requested_params_of d key))
            "depth"
          = match qd_get d "depth" with Some "" => None | v => v end) as Hraw.
  { rewrite raw_scalar_form by repeat constructor.
    by rewrite requested_params_get_other. }
  split.
  { intros Hnone. unfold params_of, bind_form. cbn [full_clean BlockListGetForm].
    destruct (cleaned_data_clean
                (raw_values (base_fields BlockListGetForm) (requested_params_of d key))
                {["requesting_user" := PyUser (user request)]})
      as (_ & _ & _ & _ & _ & -> & _).
    unfold clean_depth. by rewrite Hraw, Hnone. }
  destruct (endpoint_ok _ _ _ _ _ _ _ Hd Hr) as (depth & nav & rt & g & Hcd & _ & _ & Hg & Hs).
  assert (depth = PyInt 0) as ->.
  { unfold clean_depth in Hcd. rewrite Hraw in Hcd.
    destruct Hdepth as [Hq|Hq]; rewrite Hq in Hcd; vm_compute in Hcd; congruence. }
  destruct (depth_zero_keeps_root_only _ _ _ _ _ _ _ _ Hg) as (Hroot & blk & Hblocks).
  destruct g as [groot gblocks]. cbn in Hroot, Hblocks. subst groot gblocks.
  match type of Hs with
  | context [ mkContext ?rq ?gr ?rf ] =>
      destruct (serializers_singleton key blk (mkContext rq gr rf)) as [Hlist Hdict];
      exists (record_of (tokens rf) key blk)
  end.
  split; [reflexivity|]. split.
  - unfold record_of. cbn [rec_children].
    destruct (decide _) as [Hin|]; [|reflexivity]. exfalso. apply Hchildren.
    cbn [tokens] in Hin.
    apply elem_of_elements, elem_of_intersection in Hin as [Hin _].
    rewrite raw_list_form in Hin by repeat constructor.
    by rewrite requested_params_other in Hin.
  - cbn zeta in Hlist, Hdict. cbn [ctx_requested_fields] in Hlist, Hdict.
    destruct Hs as [[_ Hs]|[_ Hs]].
    + right. rewrite Hdict in Hs. by injection Hs as <-.
    + left. rewrite Hlist in Hs. by injection Hs as <-.
Qed.

Lemma return_type_selects_response_shape_witness :
  (qd_get (example_query [("depth", ["all"])]) "return_type" = None →
   cleaned_data (params_of BlockListGetForm (example_query [("depth", ["all"])])
                   "anjali" "course-block") !! "return_type"
     = Some (PyStr "dict")) ∧
  ∃ g,
    get_course_blocks example_store allow_all (PyUser "anjali") (PyStr "course-block")
      (LMS_COURSE_TRANSFORMERS ++
       [blocks_api_transformer_of BlocksAPITransformer
          (params_of BlockListGetForm (example_query [("depth", ["all"])])
             "anjali" "course-block")]) = Ok g ∧
    (qd_get (example_query [("depth", ["all"])]) "return_type" = None ∨
     qd_get (example_query [("depth", ["all"])]) "return_type" = Some "dict" →
     ∃ records, example_data [("depth", ["all"])] "course-block"
                  = DictData "course-block" records ∧
                dom records = dom (blocks g) ∧
                ∀ b r, records !! b = Some r → rec_id r = b) ∧
    (qd_get (example_query [("depth", ["all"])]) "return_type" = Some "list" →
     ∃ records, example_data [("depth", ["all"])] "course-block" = ListData records ∧
                rec_id <$> records = traversal g ∧
                ∀ r, r ∈ records → rec_id r ∈ dom (blocks g)).
Proof.
  refine (return_type_selects_response_shape example_store allow_all
            (example_state (example_query [("depth", ["all"])]))
            example_request "course-block" (example_query [("depth", ["all"])])
            (example_data [("depth", ["all"])] "course-block") _ _).
  - vm_compute. reflexivity.
  - vm_compute. reflexivity.
Defined.


Lemma depth_zero_returns_root_only_witness :
  (qd_get (example_query [("return_type", ["list"])]) "depth" = None →
   cleaned_data (params_of BlockListGetForm (example_query [("return_type", ["list"])])
                   "anjali" "course-block") !! "depth"
     = Some (PyInt 0)) ∧
  ∃ r, rec_id r = "course-block" ∧ rec_children r = None ∧
       (example_data [("return_type", ["list"])] "course-block" = ListData [r] ∨
        example_data [("return_type", ["list"])] "course-block"
          = DictData "course-block" {["course-block" := r]}).
Proof.
  refine (depth_zero_returns_root_only example_store allow_all
            (example_state (example_query [("return_type", ["list"])]))
            example_request "course-block" (example_query [("return_type", ["list"])])
            (example_data [("return_type", ["list"])] "course-block") _ _ _ _).
  - vm_compute. reflexivity.
  - left. vm_compute. reflexivity.
  - vm_compute. discriminate.
  - vm_compute. reflexivity.
Defined.

(** ** The pipeline returns on acyclic content *)

Lemma count_at_total (bs : gmap string Block) (T : string) :
  acyclic bs →
  ∀ (n : nat) (seen : gset string) (b : string),
    (∀ a, a ∈ seen → a ∈ dom bs ∧ tc (edge bs) a b) →
    (size (dom bs ∖ seen) ≤ n)%nat →
    is_Some (count_at n bs T b).
Proof.
  intros Hacyclic. induction n as [|f IH]; intros seen b Hseen Hsize;
    rewrite count_at_unfold; destruct (bs !! b) as [blk|] eqn:Hl; eauto.
  - exfalso.
    assert (b ∉ seen) as Hb by (intros Hin; destruct (Hseen b Hin) as [_ Htc];
                                exact (Hacyclic b Htc)).
    assert (b ∈ dom bs ∖ seen) as Hin by (apply elem_of_difference; split;
                                           [apply elem_of_dom; eauto|exact Hb]).
    assert (dom bs ∖ seen ≡ ∅) as Hempty by (apply size_empty_iff; lia).
    set_solver.
  - assert (b ∉ seen) as Hb by (intros Hin; destruct (Hseen b Hin) as [_ Htc];
                                exact (Hacyclic b Htc)).
    assert (b ∈ dom bs) as Hdom by (apply elem_of_dom; eauto).
    assert (is_Some (mapM (count_at f bs T) (children blk))) as [cs ->]; [|by cbn].
    apply mapM_is_Some, Forall_forall. intros c Hc. cbn.
    apply (IH (seen ∪ {[b]})).
    + intros a Ha. apply elem_of_union in Ha as [Ha|Ha].
      * destruct (Hseen a Ha) as [Hda Htc]. split; [exact Hda|].
        eapply tc_r; [exact Htc|]. by exists blk.
      * apply elem_of_singleton in Ha as ->. split; [exact Hdom|].
        apply tc_once. by exists blk.
    + assert (dom bs ∖ (seen ∪ {[b]}) = (dom bs ∖ seen) ∖ {[b]}) as -> by set_solver.
      rewrite size_difference by set_solver. rewrite size_singleton. lia.
Qed.

(** On an acyclic graph every count is reached within the bound. *)
Lemma subtree_count_total (bs : gmap string Block) (T b : string) :
  acyclic bs → is_Some (subtree_count bs T b).
Proof.
  intros Hacyclic. unfold subtree_count.
  apply (count_at_total bs T Hacyclic (size bs) ∅ b); [set_solver|].
  rewrite difference_empty_L, size_dom. lia.
Qed.

Lemma attach_counts_total (scope : gmap string Block) (types : list string)
    (bs : gmap string Block) :
  acyclic scope → is_Some (attach_counts scope types bs).
Proof.
  intros Hacyclic. unfold attach_counts.
  destruct (decide (types = [])); [eauto|].
  destruct (decide _) as [|Hno]; [eauto|]. exfalso. apply Hno.
  intros b blk _. unfold counts_for.
  assert (is_Some (mapM (λ T, subtree_count scope T b) types)) as [ns ->]; [|by cbn].
  apply mapM_is_Some, Forall_forall. intros T _. by apply subtree_count_total.
Qed.

Lemma edge_keep_only (keep : gset string) (bs : gmap string Block) (a c : string) :
  edge (keep_only keep bs) a c → edge bs a c.
Proof.
  intros (blk & Hl & Hc). apply lookup_keep_only in Hl as (_ & blk0 & Hl & _ & Hsub).
  exists blk0. split; [exact Hl|]. by apply Hsub.
Qed.

Lemma edge_drop_dangling_filter (P : string * Block → Prop) `{!∀ x, Decision (P x)}
    (bs : gmap string Block) (a c : string) :
  edge (drop_dangling (filter P bs)) a c → edge bs a c.
Proof.
  intros (blk & Hl & Hc). apply lookup_drop_dangling in Hl as (blk0 & Hl & ->).
  apply map_lookup_filter_Some in Hl as [Hl _]. exists blk0. split; [exact Hl|].
  cbn in Hc. by apply list_elem_of_filter in Hc as [_ Hc].
Qed.

Lemma acyclic_subgraph (bs bs' : gmap string Block) :
  (∀ a c, edge bs' a c → edge bs a c) → acyclic bs → acyclic bs'.
Proof.
  intros Hsub Hacyclic a Htc. apply (Hacyclic a).
  by apply (tc_congruence id (edge bs)) in Htc.
Qed.

(** When the root is a block the user may see and the content has no
    cycle, the pipeline of the view returns a graph. *)
Lemma get_course_blocks_total (store : gmap string Block)
    (access : User → string → Block → bool) (u k : string) (blk : Block)
    (bc svd depth nav : PyVal) :
  store !! k = Some blk → access u k blk = true → acyclic store →
  ∃ g, get_course_blocks store access (PyUser u) (PyStr k)
         (LMS_COURSE_TRANSFORMERS ++ [BlocksAPITransformer bc svd depth nav]) = Ok g.
Proof.
  intros Hl Hallowed Hacyclic. unfold get_course_blocks. rewrite Hl.
  cbn [LMS_COURSE_TRANSFORMERS app run_pipeline transform].
  unfold access_transform. cbn [root blocks].
  set (visible := drop_dangling (filter (λ kv, access u kv.1 kv.2 = true) store)).
  assert (is_Some (visible !! k)) as [blk' Hv].
  { apply elem_of_dom. unfold visible. rewrite dom_drop_dangling. apply elem_of_dom.
    exists blk. by apply map_lookup_filter_Some. }
  rewrite Hv. unfold blocks_api_transform. cbn [blocks root].
  destruct (attach_counts_total
              (keep_only (within visible k (size visible)) visible) (tokens bc)
              (inject_view_data (tokens svd)
                 (blocks (shape depth nav
                    (mkGraph k (keep_only (within visible k (size visible)) visible))))))
    as [bs ->]; [|eauto].
  eapply acyclic_subgraph; [|exact Hacyclic]. intros a c He.
  apply edge_keep_only in He. unfold visible in He.
  by apply edge_drop_dangling_filter in He.
Qed.

(** A valid request for an accessible root over acyclic content gets a
    response. *)
Lemma endpoint_total (store : gmap string Block) (access : User → string → Block → bool)
    (st : @State Transformer BlockGraph) (request : Request) (key : string)
    (d : QueryDict) (blk : Block) :
  heap st !! GET request = Some d →
  is_valid (params_of BlockListGetForm d (user request) key) = true →
  store !! key = Some blk → access (user request) key blk = true → acyclic store →
  ∃ data, (endpoint store access request key st).1 = Ok (mkResponse data).
Proof.
  intros Hd Hv Hl Hallowed Hacyclic.
  pose proof Hv as Hv'. unfold params_of, bind_form in Hv'.
  cbn [full_clean BlockListGetForm] in Hv'.
  destruct (clean_valid _ _ Hv') as (u' & k' & depth & nav & rt & Hcu & Hck & Hcd & Hcn & Hcr).
  destruct (cleaned_data_clean
              (raw_values (base_fields BlockListGetForm) (requested_params_of d key))
              {["requesting_user" := PyUser (user request)]})
    as (Hlu & Hlk & Hlf & Hls & Hlb & Hld & Hln & Hlr).
  cbn zeta in *. rewrite Hcu in Hlu. rewrite Hck in Hlk. rewrite Hcr in Hlr.
  unfold clean_user in Hcu. rewrite lookup_singleton_eq in Hcu. injection Hcu as <-.
  unfold clean_usage_key in Hck. rewrite raw_scalar_form in Hck by repeat constructor.
  rewrite requested_params_usage_key in Hck.
  destruct key as [|a key']; [discriminate|]. injection Hck as <-.
  destruct (get_course_blocks_total store access (user request) (String a key') blk
              (dict_get (cleaned_data (params_of BlockListGetForm d (user request)
                                         (String a key'))) "block_counts" (PyList []))
              (dict_get (cleaned_data (params_of BlockListGetForm d (user request)
                                         (String a key'))) "student_view_data" (PyList []))
              (dict_get (cleaned_data (params_of BlockListGetForm d (user request)
                                         (String a key'))) "depth" PyNone)
              (dict_get (cleaned_data (params_of BlockListGetForm d (user request)
                                         (String a key'))) "nav_depth" PyNone)
              Hl Hallowed Hacyclic) as [g Hg].
  unfold endpoint.
  rewrite (view_serialize BlockListGetForm LMS_COURSE_TRANSFORMERS BlocksAPITransformer
             (get_course_blocks store access) BlockDictSerializer BlockSerializer
             st request (String a key') d _ _ g _ _ Hd Hv Hlu Hlk Hg Hlf Hlr).
  destruct (bool_decide _); cbn; eauto.
Qed.

(** Without a depth bound and without navigation collapsing the final
    graph is the access-filtered one, and every count is the sum over the
    block's children in the output itself. *)
Lemma counts_consistent_without_shaping
    (store : gmap string Block) (access : User → string → Block → bool) (u k : string)
    (bc svd depth nav : PyVal) (g : BlockGraph) :
  bound depth = None → bound nav = None →
  get_course_blocks store access (PyUser u) (PyStr k)
    (LMS_COURSE_TRANSFORMERS ++ [BlocksAPITransformer bc svd depth nav]) = Ok g →
  counts_consistent (tokens bc) g.
Proof.
  intros Hdepth Hnav Hg b blk T Hl HT.
  destruct (get_course_blocks_inv _ _ _ _ _ _ _ _ _ Hg) as (g1 & bs & Ha & _ & Hc & ->).
  cbn in Hl |- *.
  destruct (final_block_shaped _ _ _ _ _ _ _ _ Hc Hl) as (blk1 & Hl1 & Ht & Hch).
  unfold shape in Hl1. rewrite Hdepth, Hnav in Hl1. cbn in Hl1.
  pose proof (final_block_count _ _ _ _ _ _ _ _ _ Hc Hl HT) as Hn.
  destruct (subtree_count_children _ _ _ _ _ Hl1 Hn) as (ns & Hns & ->).
  unfold own_count. rewrite Ht, Hch. do 2 f_equal.
  apply mapM_Some in Hns. clear Hl Hl1 Hch Hn Ht.
  induction Hns as [|c n cs ns Hn _ IH]; [reflexivity|]. cbn. f_equal; [|exact IH].
  destruct (bs !! c) as [cb|] eqn:Hlc; cbn.
  - pose proof (final_block_count _ _ _ _ _ _ _ _ _ Hc Hlc HT) as Hn'. congruence.
  - assert (blocks g1 !! c = None) as Hnone.
    { apply not_elem_of_dom.
      assert (dom bs = dom (blocks g1)) as <-
        by (rewrite (dom_final _ _ _ _ _ _ Hc); unfold shape; by rewrite Hdepth, Hnav).
      by apply not_elem_of_dom. }
    unfold subtree_count in Hn. rewrite count_at_unfold, Hnone in Hn. congruence.
Qed.

(** * Further properties of the view, for any collaborators *)

Section ViewEdgeCases.

Context {Transformer BlockStructure Data : Type}.
Variable BlockListGetForm : FormClass.
Variable LMS_COURSE_TRANSFORMERS : list Transformer.
Variable BlocksAPITransformer : PyVal → PyVal → PyVal → PyVal → Transformer.
Variable get_course_blocks : PyVal → PyVal → list Transformer → Res BlockStructure.
Variable BlockDictSerializer : BlockStructure → @SerializerContext BlockStructure → Res Data.
Variable BlockSerializer : BlockStructure → @SerializerContext BlockStructure → Res Data.

Abbreviation view :=
  (CourseBlocks_list BlockListGetForm LMS_COURSE_TRANSFORMERS BlocksAPITransformer
     get_course_blocks BlockDictSerializer BlockSerializer).
Abbreviation params_for := (params_of BlockListGetForm).
Abbreviation transformer_of := (blocks_api_transformer_of BlocksAPITransformer).
Abbreviation St := (@State Transformer BlockStructure).
Abbreviation cases :=
  (view_cases BlockListGetForm LMS_COURSE_TRANSFORMERS BlocksAPITransformer
     get_course_blocks BlockDictSerializer BlockSerializer).
Abbreviation retrieve :=
  (view_retrieve BlockListGetForm LMS_COURSE_TRANSFORMERS BlocksAPITransformer
     get_course_blocks BlockDictSerializer BlockSerializer).
Abbreviation prepare :=
  (view_prepare BlockListGetForm LMS_COURSE_TRANSFORMERS BlocksAPITransformer
     get_course_blocks BlockDictSerializer BlockSerializer).
Abbreviation serialize :=
  (view_serialize BlockListGetForm LMS_COURSE_TRANSFORMERS BlocksAPITransformer
     get_course_blocks BlockDictSerializer BlockSerializer).

(** X1.  The [except] clause catches [ItemNotFoundError] only: any other
    exception of [get_course_blocks] leaves the view as it was raised. *)
Theorem other_exceptions_propagate_unchanged (st : St) request key d u k e :
  heap st !! GET request = Some d →
  let params := params_for d (user request) key in
  is_valid params = true →
  cleaned_data params !! "user" = Some u →
  cleaned_data params !! "usage_key" = Some k →
  get_course_blocks u k (LMS_COURSE_TRANSFORMERS ++ [transformer_of params]) = Raise e →
  (∀ message, e ≠ ItemNotFoundError message) →
  (view request key st).1 = Raise e.
Proof.
  intros Hd params Hv Hu Hk Hb Hother.
  rewrite (retrieve _ _ _ _ _ _ Hd Hv Hu Hk). cbn zeta. fold params. rewrite Hb.
  destruct e; try reflexivity. by destruct (Hother message).
Qed.

(** X2.  [cleaned_data['user']] and [cleaned_data['usage_key']] are
    indexed, not read with a default: when one is missing the view raises
    [KeyError] for the first missing one, outside the reach of the [except]
    clause, and before any call is made. *)
Theorem missing_required_key_raises_before_retrieval (st : St) request key d name :
  heap st !! GET request = Some d →
  let params := params_for d (user request) key in
  is_valid params = true →
  (name = "user" ∧ cleaned_data params !! "user" = None) ∨
  (name = "usage_key" ∧ is_Some (cleaned_data params !! "user") ∧
   cleaned_data params !! "usage_key" = None) →
  (view request key st).1 = Raise (KeyError name) ∧
  trace (view request key st).2 = trace st.
Proof.
  intros Hd params Hv Hmissing.
  assert (view request key st
          = (Raise (KeyError name),
             mkState (<[fresh (dom (heap st)) := requested_params_of d key]> (heap st))
               (trace st))) as ->; [|done].
  rewrite (prepare _ _ _ _ Hd). cbn zeta. fold params. rewrite Hv. cbn [negb].
  unfold bind at 1, try_except, bind at 1, getitem at 1.
  destruct Hmissing as [[-> Hu]|(-> & [u Hu] & Hk)]; rewrite Hu.
  - reflexivity.
  - unfold ret at 1, bind at 1, getitem at 1. by rewrite Hk.
Qed.

(** X3.  [cleaned_data['requested_fields']] and
    [cleaned_data['return_type']] are indexed after the blocks are
    retrieved: when one is missing the view raises [KeyError] for the first
    missing one, having called [get_course_blocks] and no serializer. *)
Theorem missing_serializer_key_raises_after_retrieval
    (st : St) request key d u k blocks name :
  heap st !! GET request = Some d →
  let params := params_for d (user request) key in
  let ts := LMS_COURSE_TRANSFORMERS ++ [transformer_of params] in
  is_valid params = true →
  cleaned_data params !! "user" = Some u →
  cleaned_data params !! "usage_key" = Some k →
  get_course_blocks u k ts = Ok blocks →
  (name = "requested_fields" ∧ cleaned_data params !! "requested_fields" = None) ∨
  (name = "return_type" ∧ is_Some (cleaned_data params !! "requested_fields") ∧
   cleaned_data params !! "return_type" = None) →
  (view request key st).1 = Raise (KeyError name) ∧
  trace (view request key st).2 = trace st ++ [CallGetCourseBlocks u k ts].
Proof.
  intros Hd params ts Hv Hu Hk Hb Hmissing.
  assert (view request key st
          = (Raise (KeyError name),
             mkState (<[fresh (dom (heap st)) := requested_params_of d key]> (heap st))
               (trace st ++ [CallGetCourseBlocks u k ts]))) as ->; [|done].
  rewrite (retrieve _ _ _ _ _ _ Hd Hv Hu Hk). cbn zeta. fold params ts. rewrite Hb.
  unfold bind at 1, getitem at 1.
  destruct Hmissing as [[-> Hf]|(-> & [rf Hf] & Hr)]; rewrite Hf.
  - reflexivity.
  - unfold ret at 1, bind at 1, getitem at 1. by rewrite Hr.
Qed.

(** X4.  The serializer is [BlockDictSerializer] when the cleaned
    [return_type] equals ['dict'] and [BlockSerializer] for every other
    value; it is run once, on the retrieved blocks, with a context made of
    the request, those blocks and the cleaned [requested_fields].  Its data
    is the response, and its exception is the view's. *)
Theorem serializer_follows_return_type
    (st : St) request key d u k blocks requested_fields return_type :
  heap st !! GET request = Some d →
  let params := params_for d (user request) key in
  let ts := LMS_COURSE_TRANSFORMERS ++ [transformer_of params] in
  let ctx := mkContext request blocks requested_fields in
  is_valid params = true →
  cleaned_data params !! "user" = Some u →
  cleaned_data params !! "usage_key" = Some k →
  get_course_blocks u k ts = Ok blocks →
  cleaned_data params !! "requested_fields" = Some requested_fields →
  cleaned_data params !! "return_type" = Some return_type →
  (return_type = PyStr "dict" →
   (view request key st).1 = body (BlockDictSerializer blocks ctx) ∧
   trace (view request key st).2
     = trace st ++ [CallGetCourseBlocks u k ts; CallBlockDictSerializer blocks ctx]) ∧
  (return_type ≠ PyStr "dict" →
   (view request key st).1 = body (BlockSerializer blocks ctx) ∧
   trace (view request key st).2
     = trace st ++ [CallGetCourseBlocks u k ts; CallBlockSerializer blocks ctx]).
Proof.
  intros Hd params ts ctx Hv Hu Hk Hb Hf Hr.
  rewrite (serialize _ _ _ _ _ _ _ _ _ Hd Hv Hu Hk Hb Hf Hr). fold params ts ctx.
  split; intros Hrt.
  - by rewrite bool_decide_eq_true_2.
  - by rewrite bool_decide_eq_false_2.
Qed.

(** X5.  On every path the view calls nothing, or [get_course_blocks]
    once, or [get_course_blocks] once and then one serializer.  The
    retrieval is called only for a valid form, with the cleaned user, the
    cleaned usage key and the fixed chain followed by the request's
    transformer; a serializer is called only on the blocks the retrieval
    returned. *)
Theorem calls_are_one_retrieval_then_one_serializer (st : St) request key :
  ∃ evs,
    trace (view request key st).2 = trace st ++ evs ∧
    (evs = [] ∨
     ∃ d u k,
       heap st !! GET request = Some d ∧
       is_valid (params_for d (user request) key) = true ∧
       cleaned_data (params_for d (user request) key) !! "user" = Some u ∧
       cleaned_data (params_for d (user request) key) !! "usage_key" = Some k ∧
       let call :=
         CallGetCourseBlocks u k
           (LMS_COURSE_TRANSFORMERS ++ [transformer_of (params_for d (user request) key)]) in
       (evs = [call] ∨
        ∃ blocks ctx,
          get_course_blocks u k
            (LMS_COURSE_TRANSFORMERS ++ [transformer_of (params_for d (user request) key)])
            = Ok blocks ∧
          ctx_request ctx = request ∧ ctx_block_structure ctx = blocks ∧
          (evs = [call; CallBlockDictSerializer blocks ctx] ∨
           evs = [call; CallBlockSerializer blocks ctx]))).
Proof.
  destruct (cases st request key) as [[_ Hrun]|(d & Hd & Hc)].
  { exists []. rewrite Hrun. cbn. rewrite app_nil_r. eauto. }
  cbn zeta in Hc.
  destruct Hc as [[_ Hrun]|[(_ & _ & name & Hrun)|(Hv & u & k & Hu & Hk & Hc)]];
    [exists []; rewrite Hrun; cbn; rewrite app_nil_r; eauto..|].
  cbn zeta in Hc.
  destruct Hc as [(e & e' & _ & Hrun)|[(b & name & _ & _ & Hrun)|(b & rf & rt & Hb & _ & _ & Hc)]].
  - eexists [_]. rewrite Hrun. split; [reflexivity|]. right. exists d, u, k. eauto 10.
  - eexists [_]. rewrite Hrun. split; [reflexivity|]. right. exists d, u, k. eauto 10.
  - cbn zeta in Hc. destruct Hc as [[_ Hrun]|[_ Hrun]]; rewrite Hrun;
      (eexists [_; _]; split; [reflexivity|]); right; exists d, u, k;
      (do 4 (split; [assumption|])); right;
      exists b, (mkContext request b rf); eauto 10.
Qed.

(** X6.  The view works on a copy that is mutable whatever [request.GET]
    is: two runs whose [request.GET] hold the same lists, immutable in one
    and mutable in the other, return the same result and make the same
    calls. *)
Theorem mutability_of_GET_is_irrelevant (st1 st2 : St) request key d1 d2 :
  heap st1 !! GET request = Some d1 →
  heap st2 !! GET request = Some d2 →
  qd_lists d1 = qd_lists d2 →
  qd_mutable (requested_params_of d1 key) = true ∧
  (view request key st1).1 = (view request key st2).1 ∧
  ∃ evs, trace (view request key st1).2 = trace st1 ++ evs ∧
         trace (view request key st2).2 = trace st2 ++ evs.
Proof.
  intros Hd1 Hd2 Hlists. split; [reflexivity|].
  assert (requested_params_of d2 key = requested_params_of d1 key) as Hrp.
  { unfold requested_params_of, qd_update, qd_copy, qd_getlist. cbn. by rewrite Hlists. }
  destruct (view_uniform BlockListGetForm LMS_COURSE_TRANSFORMERS BlocksAPITransformer
              get_course_blocks BlockDictSerializer BlockSerializer st1 request key d1 Hd1)
    as (r & evs & Hrun).
  rewrite (Hrun st1 d1 Hd1 eq_refl).
  rewrite (Hrun st2 d2 Hd2) by (unfold params_of; by rewrite Hrp).
  split; [reflexivity|]. by exists evs.
Qed.

(** X7.  A response is returned only when the form was valid, the cleaned
    data held the four indexed keys, [get_course_blocks] returned blocks for
    the cleaned user and usage key, and the serializer chosen by
    [return_type] returned the data of the response. *)
Theorem response_only_after_validation_and_retrieval (st : St) request key data :
  (view request key st).1 = Ok (mkResponse data) →
  ∃ d u k blocks requested_fields return_type,
    heap st !! GET request = Some d ∧
    let params := params_for d (user request) key in
    let ctx := mkContext request blocks requested_fields in
    is_valid params = true ∧
    cleaned_data params !! "user" = Some u ∧
    cleaned_data params !! "usage_key" = Some k ∧
    cleaned_data params !! "requested_fields" = Some requested_fields ∧
    cleaned_data params !! "return_type" = Some return_type ∧
    get_course_blocks u k (LMS_COURSE_TRANSFORMERS ++ [transformer_of params]) = Ok blocks ∧
    ((return_type = PyStr "dict" ∧ BlockDictSerializer blocks ctx = Ok data) ∨
     (return_type ≠ PyStr "dict" ∧ BlockSerializer blocks ctx = Ok data)).
Proof.
  intros Hr.
  destruct (cases st request key) as [[_ Hrun]|(d & Hd & Hc)];
    [rewrite Hrun in Hr; discriminate|].
  cbn zeta in Hc.
  destruct Hc as [[_ Hrun]|[(_ & _ & name & Hrun)|(Hv & u & k & Hu & Hk & Hc)]];
    [rewrite Hrun in Hr; discriminate..|].
  cbn zeta in Hc.
  destruct Hc as [(e & e' & _ & Hrun)|[(b & name & _ & _ & Hrun)|(b & rf & rt & Hb & Hf & Hrt & Hc)]];
    [rewrite Hrun in Hr; discriminate..|].
  cbn zeta in Hc. exists d, u, k, b, rf, rt. cbn zeta.
  do 7 (split; [assumption|]).
  destruct Hc as [[Heq Hrun]|[Hne Hrun]]; rewrite Hrun in Hr; cbn [fst] in Hr.
  - left. split; [exact Heq|].
    destruct (BlockDictSerializer b (mkContext request b rf)) as [data'|]; [|discriminate].
    by inversion Hr.
  - right. split; [exact Hne|].
    destruct (BlockSerializer b (mkContext request b rf)) as [data'|]; [|discriminate].
    by inversion Hr.
Qed.

End ViewEdgeCases.

(** ** Witnesses of the further properties *)

Lemma other_exceptions_propagate_unchanged_witness :
  (endpoint example_store (λ _ _ _, false) example_request "course-block"
     (example_state (example_query []))).1
    = Raise (PermissionDenied "course-block").
Proof.
  refine (other_exceptions_propagate_unchanged
            BlockListGetForm LMS_COURSE_TRANSFORMERS BlocksAPITransformer
            (get_course_blocks example_store (λ _ _ _, false))
            BlockDictSerializer BlockSerializer
            (example_state (example_query [])) example_request "course-block"
            (example_query []) (PyUser "anjali") (PyStr "course-block")
            (PermissionDenied "course-block")
            eq_refl eq_refl eq_refl eq_refl eq_refl _).
  intros message. discriminate.
Defined.

Lemma missing_required_key_raises_before_retrieval_witness :
  (CourseBlocks_list empty_form LMS_COURSE_TRANSFORMERS BlocksAPITransformer
     (get_course_blocks example_store allow_all) BlockDictSerializer BlockSerializer
     example_request "course-block" (example_state (example_query []))).1
    = Raise (KeyError "user") ∧
  trace (CourseBlocks_list empty_form LMS_COURSE_TRANSFORMERS BlocksAPITransformer
           (get_course_blocks example_store allow_all) BlockDictSerializer BlockSerializer
           example_request "course-block" (example_state (example_query []))).2
    = [].
Proof.
  refine (missing_required_key_raises_before_retrieval
            empty_form LMS_COURSE_TRANSFORMERS BlocksAPITransformer
            (get_course_blocks example_store allow_all) BlockDictSerializer BlockSerializer
            (example_state (example_query [])) example_request "course-block"
            (example_query []) "user" eq_refl eq_refl _).
  left. split; reflexivity.
Defined.

Lemma missing_serializer_key_raises_after_retrieval_witness :
  (CourseBlocks_list required_only_form LMS_COURSE_TRANSFORMERS BlocksAPITransformer
     (get_course_blocks example_store allow_all) BlockDictSerializer BlockSerializer
     example_request "course-block" (example_state (example_query []))).1
    = Raise (KeyError "requested_fields") ∧
  trace (CourseBlocks_list required_only_form LMS_COURSE_TRANSFORMERS BlocksAPITransformer
           (get_course_blocks example_store allow_all) BlockDictSerializer BlockSerializer
           example_request "course-block" (example_state (example_query []))).2
    = [] ++ [CallGetCourseBlocks (PyUser "anjali") (PyStr "course-block")
               (LMS_COURSE_TRANSFORMERS ++
                [BlocksAPITransformer (PyList []) (PyList []) PyNone PyNone])].
Proof.
  refine (missing_serializer_key_raises_after_retrieval
            required_only_form LMS_COURSE_TRANSFORMERS BlocksAPITransformer
            (get_course_blocks example_store allow_all) BlockDictSerializer BlockSerializer
            (example_state (example_query [])) example_request "course-block"
            (example_query []) (PyUser "anjali") (PyStr "course-block")
            (example_graph (PyList []) (PyList []) PyNone PyNone)
            "requested_fields" eq_refl eq_refl eq_refl eq_refl _ _).
  - vm_compute. reflexivity.
  - left. split; reflexivity.
Defined.

Lemma serializer_follows_return_type_witness :
  let g := example_graph (PySet ∅) (PySet ∅) (PyInt 0) (PyInt 3) in
  (example_run [("return_type", ["list"])] "course-block").1
    = body (BlockSerializer g (mkContext example_request g (PySet ∅))).
Proof.
  refine (proj1 (proj2 (serializer_follows_return_type
            BlockListGetForm LMS_COURSE_TRANSFORMERS BlocksAPITransformer
            (get_course_blocks example_store allow_all) BlockDictSerializer BlockSerializer
            (example_state (example_query [("return_type", ["list"])]))
            example_request "course-block" (example_query [("return_type", ["list"])])
            (PyUser "anjali") (PyStr "course-block")
            (example_graph (PySet ∅) (PySet ∅) (PyInt 0) (PyInt 3))
            (PySet ∅) (PyStr "list") eq_refl eq_refl eq_refl eq_refl _ _ _) _)).
  - vm_compute. reflexivity.
  - vm_compute. reflexivity.
  - vm_compute. reflexivity.
  - discriminate.
Defined.

Lemma mutability_of_GET_is_irrelevant_witness :
  (endpoint example_store allow_all example_request "course-block"
     (example_state (example_query []))).1
    = (endpoint example_store allow_all example_request "course-block"
         (example_state (mkQueryDict ∅ true))).1.
Proof.
  refine (proj1 (proj2 (mutability_of_GET_is_irrelevant
            BlockListGetForm LMS_COURSE_TRANSFORMERS BlocksAPITransformer
            (get_course_blocks example_store allow_all) BlockDictSerializer BlockSerializer
            (example_state (example_query [])) (example_state (mkQueryDict ∅ true))
            example_request "course-block" (example_query []) (mkQueryDict ∅ true)
            eq_refl eq_refl eq_refl))).
Defined.

Lemma response_only_after_validation_and_retrieval_witness :
  ∃ d, heap (example_state (example_query [])) !! GET example_request = Some d ∧
       is_valid (params_of BlockListGetForm d "anjali" "course-block") = true.
Proof.
  destruct (response_only_after_validation_and_retrieval
              BlockListGetForm LMS_COURSE_TRANSFORMERS BlocksAPITransformer
              (get_course_blocks example_store allow_all) BlockDictSerializer BlockSerializer
              (example_state (example_query [])) example_request "course-block"
              (example_data [] "course-block"))
    as (d & u & k & blocks & rf & rt & Hd & Hv & _).
  - vm_compute. reflexivity.
  - exists d. split; [exact Hd|exact Hv].
Defined.
